(** * AIOps agent: risk gating, remediation dispatch, plan enrichment, action guard

    A shallow embedding of the two Azure Functions of the repository:

    - [src/function_app/__init__.py]: the agent.  Modelled here are the
      request decoding at the top of [main], [_maybe_remediate] and the
      block of [main] that appends the remediation results to the plan.
    - [src/remediation/__init__.py]: the action guard ([SAFE_ACTIONS] and
      [main]).

    Python values that come out of [json.loads] / [req.get_json()] are
    modelled by the type [json]; Python exceptions by the error monad
    [result]; the HTTP call [requests.post] by a step function on an
    abstract world, threaded through a state-and-error monad. *)

From stdpp Require Import gmap strings list fin_maps pretty.
From Stdlib Require Import ZArith Floats.PrimFloat.

Open Scope Z_scope.

(** ** Python values and primitives *)

Module Py.

(** What [json.loads] can return.  A [str] is a [string] whose characters
    are the code points below 256; a [dict] has string keys and is a finite
    map (the order of its keys plays no role in the functions below, only
    in the text that [json.dumps] prints). *)
#[warnings="-register-all"]
Inductive json : Type :=
  | JNull
  | JBool (b : bool)
  | JNum (n : Z)
  | JFloat (f : float)
  | JStr (s : string)
  | JList (l : list json)
  | JDict (d : gmap string json).

(** The exceptions the modelled code can raise. *)
Inductive exn : Type :=
  | AttributeError
  | TypeError
  | KeyError
  | ValueError.

(** A computation that returns or raises. *)
Inductive result (A : Type) : Type :=
  | Ok (a : A)
  | Raise (e : exn).
Arguments Ok {A} a.
Arguments Raise {A} e.

#[global] Instance result_ret : MRet result := λ A a, Ok a.
#[global] Instance result_bind : MBind result := λ A B f m,
  match m with
  | Ok a => f a
  | Raise e => Raise e
  end.
#[global] Instance result_fmap : FMap result := λ A B f m,
  match m with
  | Ok a => Ok (f a)
  | Raise e => Raise e
  end.

(** [bool(v)]. *)
Definition truthy (v : json) : bool :=
  match v with
  | JNull => false
  | JBool b => b
  | JNum n => negb (n =? 0)
  | JFloat f => negb (PrimFloat.eqb f 0%float)
  | JStr s => negb (String.eqb s "")
  | JList l => match l with [] => false | _ :: _ => true end
  | JDict d => negb (bool_decide (d = ∅))
  end.

(** [a or b]. *)
Definition py_or (a b : json) : json := if truthy a then a else b.

(** [v.get(k, default)]: only a dict has the method. *)
Definition dict_get (v : json) (k : string) (dflt : json) : result json :=
  match v with
  | JDict d => Ok (default dflt (d !! k))
  | _ => Raise AttributeError
  end.

(** [v[k]] with a string key. *)
Definition subscript (v : json) (k : string) : result json :=
  match v with
  | JDict d => match d !! k with Some x => Ok x | None => Raise KeyError end
  | _ => Raise TypeError
  end.

(** [for x in v]: the items of a list, the keys of a dict, the characters
    of a string; anything else is not iterable. *)
Definition py_iter (v : json) : result (list json) :=
  match v with
  | JList l => Ok l
  | JDict d => Ok (JStr <$> (map_to_list d).*1)
  | JStr s => Ok ((λ c, JStr (String c "")) <$> String.list_ascii_of_string s)
  | _ => Raise TypeError
  end.

(** [str.lower] on one character: A-Z and the Latin-1 capitals. *)
Definition lower_char (c : Ascii.ascii) : Ascii.ascii :=
  let n := Ascii.N_of_ascii c in
  if ((65 <=? n) && (n <=? 90)
      || (192 <=? n) && (n <=? 222) && negb (n =? 215))%N
  then Ascii.ascii_of_N (n + 32)
  else c.

Fixpoint lower (s : string) : string :=
  match s with
  | EmptyString => EmptyString
  | String c s' => String (lower_char c) (lower s')
  end.

(** [v.lower()]: only a str has the method. *)
Definition str_lower (v : json) : result string :=
  match v with
  | JStr s => Ok (lower s)
  | _ => Raise AttributeError
  end.

(** [s[:n]]. *)
Definition prefix (n : nat) (s : string) : string := String.substring 0 n s.

(** The text an f-string puts for [{v}].  A str is copied, [None], a bool
    and an int print as Python prints them; the [repr] of a float, a list
    or a dict is left to [py_repr]. *)
Definition py_str (py_repr : json → string) (v : json) : string :=
  match v with
  | JNull => "None"
  | JBool true => "True"
  | JBool false => "False"
  | JNum n => pretty n
  | JStr s => s
  | JFloat _ | JList _ | JDict _ => py_repr v
  end.

(** Code that returns or raises and may change a world of type [W] on the
    way (here: the services reached over HTTP).  A raise keeps the world
    reached so far. *)
Definition M (W A : Type) : Type := W → result A * W.

#[global] Instance M_ret {W} : MRet (M W) := λ A a w, (Ok a, w).
#[global] Instance M_bind {W} : MBind (M W) := λ A B f m w,
  match m w with
  | (Ok a, w') => f a w'
  | (Raise e, w') => (Raise e, w')
  end.

(** A step that does not touch the world. *)
Definition pure {W A} (r : result A) : M W A := λ w, (r, w).

End Py.

(** ** The part of [azure.functions] the two entry points use *)

Module Func.
Import Py.

(** An HTTP request: its method and what [req.get_json()] gives, a value or
    the [ValueError] of a body that is not JSON. *)
Record HttpRequest : Type := {
  method : string;
  get_json : result json;
}.

(** An HTTP response.  [body] is the document handed to [json.dumps];
    [status_code] is 200 when the constructor is not given one. *)
Record HttpResponse : Type := {
  body : json;
  mimetype : string;
  status_code : Z;
}.

End Func.

(** ** [src/remediation/__init__.py]: the action guard *)

Module Remediation.
Import Py Func.

Definition SAFE_ACTIONS : gset string :=
  {[ "scale_db"; "toggle_feature_flag"; "restart_service" ]}.

(** [v not in s] for a set of strings [s]: the value is hashed first, and a
    list or a dict cannot be. *)
Definition not_in_set (v : json) (s : gset string) : result bool :=
  match v with
  | JStr x => Ok (negb (bool_decide (x ∈ s)))
  | JList _ | JDict _ => Raise TypeError
  | JNull | JBool _ | JNum _ | JFloat _ => Ok true
  end.

(** [not action or action not in safe], with the short cut of [or]. *)
Definition rejected (action : json) (safe : gset string) : result bool :=
  if negb (truthy action) then Ok true else not_in_set action safe.

(** The body of [main], with the module constant it reads as [safe]. *)
Definition guard (safe : gset string) (req : HttpRequest) : result HttpResponse :=
  match get_json req with
  | Raise _ =>
      Ok {| body := JDict {[ "status" := JStr "error";
                             "message" := JStr "Invalid JSON." ]};
            mimetype := "application/json";
            status_code := 400 |}
  | Ok data =>
      action ← dict_get data "action" JNull;
      params ← dict_get data "params" (JDict ∅);
      deny ← rejected action safe;
      if deny : bool then
        Ok {| body := JDict {[ "status" := JStr "denied";
                               "reason" := JStr "unsafe or unknown action";
                               "allowed_actions" := JList (JStr <$> elements safe) ]};
              mimetype := "application/json";
              status_code := 403 |}
      else
        Ok {| body := JDict {[ "status" := JStr "ok";
                               "action" := action;
                               "params" := params;
                               "message" := JStr "Action executed (simulation)." ]};
              mimetype := "application/json";
              status_code := 200 |}
  end.

Definition main (req : HttpRequest) : result HttpResponse := guard SAFE_ACTIONS req.

End Remediation.

(** ** [src/function_app/__init__.py]: the agent *)

Module FunctionApp.
Import Py Func.

(** What one [requests.post(...)] does: it answers with a status code and a
    body, or raises; [message] is [str(ex)] of the exception. *)
Inductive post_result : Type :=
  | Response (code : Z) (text : string)
  | Raised (message : string).

(** The two verdicts of the risk policy. *)
Inductive decision : Type :=
  | AutoExecute
  | RequireApproval.

(** Line 211: [(act.get("risk") or "").lower()]. *)
Definition risk_tag (act : json) : result string :=
  r ← dict_get act "risk" JNull;
  str_lower (py_or r (JStr "")).

(** Line 212, first conjunct: [risk in ("low", "medium")]. *)
Definition low_or_medium (risk : string) : bool :=
  String.eqb risk "low" || String.eqb risk "medium".

(** The risk policy on its own: the tag of line 211 under the membership
    test of line 212. *)
Definition classify (act : json) : result decision :=
  risk ← risk_tag act;
  Ok (if low_or_medium risk then AutoExecute else RequireApproval).

(** Lines 214-216. *)
Definition request_headers (remediation_key : option string) : gmap string string :=
  let headers := {[ "Content-Type" := "application/json" ]} in
  match remediation_key with
  | Some k => if String.eqb k "" then headers else <["x-functions-key" := k]> headers
  | None => headers
  end.

(** The three records [_maybe_remediate] appends to [results]
    (lines 219-223, 225-229, 231-235). *)
Definition executed_record (name : json) (code : Z) (text : string) : json :=
  JDict {[ "action" := name;
           "status" := JNum code;
           "response" := JStr (prefix 300 text) ]}.

Definition error_record (name : json) (message : string) : json :=
  JDict {[ "action" := name;
           "status" := JStr "error";
           "response" := JStr message ]}.

Definition skip_reason : string := "risk too high or remediation endpoint missing".

Definition skipped_record (name : json) : json :=
  JDict {[ "action" := name;
           "status" := JStr "skipped";
           "reason" := JStr skip_reason ]}.

(** Line 213. *)
Definition payload_of (name params : json) : json :=
  JDict {[ "action" := name; "params" := params ]}.

Section Dispatch.
Context {World : Type}.
(** [requests.post(url, headers=..., json=..., timeout=...)]. *)
Variable requests_post :
  string → gmap string string → json → Z → World → post_result * World.
Variable remediation_url : string.
Variable remediation_key : option string.

(** Lines 213-229: the call under [try] and the record of its outcome. *)
Definition post_action (name params : json) : M World json := λ w,
  let payload := payload_of name params in
  let headers := request_headers remediation_key in
  match requests_post remediation_url headers payload 20 w with
  | (Response code text, w') => (Ok (executed_record name code text), w')
  | (Raised message, w') => (Ok (error_record name message), w')
  end.

(** Lines 209-235: the body of the loop, for one action. *)
Definition remediate_action (act : json) : M World json :=
  name ← pure (dict_get act "name" JNull);
  params ← pure (dict_get act "params" (JDict ∅));
  risk ← pure (risk_tag act);
  if low_or_medium risk && negb (String.eqb remediation_url "") then
    post_action name params
  else
    mret (skipped_record name).

(** The loop: [results] grows by one record per action, a raise leaves
    the loop and the function. *)
Fixpoint for_actions (acts results : list json) : M World (list json) :=
  match acts with
  | [] => mret results
  | act :: rest =>
      r ← remediate_action act;
      for_actions rest (results ++ [r])
  end.

Definition _maybe_remediate (plan : json) : M World (list json) :=
  actions ← pure (dict_get plan "actions" (JList []));
  acts ← pure (py_iter actions);
  for_actions acts [].
End Dispatch.

Section Enrich.
Variable py_repr : json → string.

(** The dict built for one result, lines 389-393. *)
Definition result_action (r : json) : result json :=
  a ← subscript r "action";
  Ok (JDict {[ "name" := JStr ("result:" +:+ py_str py_repr a);
               "params" := r;
               "risk" := JStr "n/a" ]}).

(** [d.setdefault(k, v)], for the dict it leaves. *)
Definition setdefault (d : gmap string json) (k : string) (v : json) : gmap string json :=
  match d !! k with
  | Some _ => d
  | None => <[k := v]> d
  end.

(** Lines 386-394 of [main]: [plan["actions"] += [...]] reads the entry,
    builds the list of result actions, extends and stores. *)
Definition append_results (plan : json) (results : list json) : result json :=
  match results with
  | [] => Ok plan
  | _ :: _ =>
      match plan with
      | JDict d =>
          let d1 := setdefault d "actions" (JList []) in
          old ← subscript (JDict d1) "actions";
          new ← mapM result_action results;
          match old with
          | JList l => Ok (JDict (<["actions" := JList (l ++ new)]> d1))
          | _ => Raise TypeError
          end
      | _ => Raise AttributeError
      end
  end.
End Enrich.

(** Step 4 of [main]: dispatch, then append the results to the plan. *)
Definition remediation_step {World : Type}
    (requests_post : string → gmap string string → json → Z → World → post_result * World)
    (py_repr : json → string)
    (remediation_url : string) (remediation_key : option string)
    (plan : json) : M World json :=
  results ← _maybe_remediate requests_post remediation_url remediation_key plan;
  pure (append_results py_repr plan results).

(** Lines 326-329 of [main]. *)
Definition read_body (req : HttpRequest) : json :=
  match (if String.eqb (method req) "POST" then get_json req else Ok (JDict ∅)) with
  | Ok body => body
  | Raise _ => JDict ∅
  end.

Definition default_question : string :=
  "Why did latency spike in the last 30 minutes?".

(** The incident context used when the caller gives none; [now] is
    [dt.datetime.now().isoformat(timespec="seconds")]. *)
Definition default_incident (now : string) : json :=
  JDict {[ "title" := JStr "Service latency spike";
           "environment" := JStr "prod";
           "severity" := JStr "Sev2";
           "start_time_local" := JStr now;
           "id" := JStr "INC-XXXXX";
           "service_name" := JStr "unknown-service";
           "region" := JStr "unknown-region";
           "change_ref" := JStr "unknown-change";
           "dashboard_url" := JStr "https://portal.azure.com/";
           "incident_url" := JStr "https://dev.azure.com/" ]}.

(** Lines 326-348 of [main]: the question and the incident context. *)
Definition read_inputs (now : string) (req : HttpRequest) : result (json * json) :=
  let body := read_body req in
  question ← dict_get body "question" (JStr default_question);
  incident_ctx ← dict_get body "incident" (default_incident now);
  Ok (question, incident_ctx).

End FunctionApp.

(** ** A scripted executor, to run the dispatcher on concrete plans *)

Module Script.
Import Py FunctionApp.

(** The world is the list of replies still to come; a call takes the next
    one, and fails to connect once the list is used up. *)
Definition post (url : string) (headers : gmap string string) (payload : json)
    (timeout : Z) (w : list post_result) : post_result * list post_result :=
  match w with
  | [] => (Raised "connection refused", [])
  | r :: w' => (r, w')
  end.

(** A stand-in for [repr] on floats, lists and dicts. *)
Definition repr (v : json) : string := "<repr>".

Definition action (name : string) (risk : json) : json :=
  JDict {[ "name" := JStr name; "params" := JDict ∅; "risk" := risk ]}.

Definition plan_of (actions : list json) : json :=
  JDict {[ "rca_summary" := JStr "pool exhausted";
           "confidence" := JNum 1;
           "actions" := JList actions;
           "evidence" := JDict ∅ ]}.

Definition endpoint : string := "https://ops.example.net/api/remediation".

(** A plan of three actions and three replies, the second a failure. *)
Definition three_actions : list json :=
  [action "scale_db" (JStr "low");
   action "restart_service" (JStr "Medium");
   action "toggle_feature_flag" (JStr "high")].

Definition replies : list post_result :=
  [Response 200 "done"; Raised "read timed out"; Response 403 "denied"].

(** A request to the guard, as the dispatcher sends them. *)
Definition scale_request : gmap string json :=
  {[ "action" := JStr "scale_db"; "params" := JDict {[ "x" := JNum 1 ]} ]}.

(** An exception text of 301 characters. *)
Definition long_message : string := String.concat "" (replicate 301 "x").

End Script.

(** ** The shapes the two entry points expect of their input *)

Module Shape.
Import Py.

Definition is_str (v : json) : bool :=
  match v with
  | JStr _ => true
  | _ => false
  end.

(** An action whose [risk] entry is absent, falsy ([None], [""], [0],
    [False], an empty list or dict) or a str. *)
Definition tagged (act : json) : bool :=
  match act with
  | JDict d =>
      match d !! "risk" with
      | None => true
      | Some v => negb (truthy v) || is_str v
      end
  | _ => false
  end.

(** A value a set can be asked about: anything but a list or a dict. *)
Definition hashable (v : json) : bool :=
  match v with
  | JList _ | JDict _ => false
  | _ => true
  end.

(** A record with an ["action"] entry, as [_maybe_remediate] builds them. *)
Definition has_action (r : json) : bool :=
  match r with
  | JDict o => bool_decide (is_Some (o !! "action"))
  | _ => false
  end.

End Shape.

(** ** Runs of the dispatch loop *)

Module Run.
Import Py FunctionApp.

Section Dispatched.
Context {World : Type}.
Variable requests_post :
  string → gmap string string → json → Z → World → post_result * World.
Variable remediation_url : string.
Variable remediation_key : option string.

(** [dispatched acts w outs w']: from world [w] the loop body returns on
    every action of [acts] in turn, leaving the records [outs] and the
    world [w']. *)
Inductive dispatched : list json → World → list json → World → Prop :=
  | dispatched_nil w :
      dispatched [] w [] w
  | dispatched_cons act acts o outs w w1 w2 :
      remediate_action requests_post remediation_url remediation_key act w = (Ok o, w1) →
      dispatched acts w1 outs w2 →
      dispatched (act :: acts) w (o :: outs) w2.
End Dispatched.

End Run.

(** ** The rest of [src/function_app/__init__.py] *)

Module Agent.
Import Py Func FunctionApp.

(** What can leave a function of the agent: one of the built-in exceptions
    of [Py], an [IndexError], or an exception of a service client (the
    Azure SDK). *)
Inductive error : Type :=
  | Builtin (e : exn)
  | IndexError
  | SdkError.

Inductive outcome (A : Type) : Type :=
  | Done (a : A)
  | Failed (e : error).
Arguments Done {A} a.
Arguments Failed {A} e.

#[global] Instance outcome_ret : MRet outcome := λ A a, Done a.
#[global] Instance outcome_bind : MBind outcome := λ A B f m,
  match m with
  | Done a => f a
  | Failed e => Failed e
  end.

(** Code that returns or fails, on a world. *)
Definition Eff (W A : Type) : Type := W → outcome A * W.

#[global] Instance Eff_ret {W} : MRet (Eff W) := λ A a w, (Done a, w).
#[global] Instance Eff_bind {W} : MBind (Eff W) := λ A B f m w,
  match m w with
  | (Done a, w') => f a w'
  | (Failed e, w') => (Failed e, w')
  end.

Definition of_result {A} (r : result A) : outcome A :=
  match r with
  | Ok a => Done a
  | Raise e => Failed (Builtin e)
  end.

(** A step without effect, and a step of the dispatcher. *)
Definition lift {W A} (r : result A) : Eff W A := λ w, (of_result r, w).

Definition run {W A} (m : M W A) : Eff W A := λ w,
  let (r, w') := m w in (of_result r, w').

(** The characters the literals below need and a Rocq literal cannot hold:
    the line feed and the double quote.  [bullet] is U+2022, kept as the
    three bytes of its UTF-8 form. *)
Definition nl : string := String (Ascii.ascii_of_nat 10) "".
Definition dq : string := String (Ascii.ascii_of_nat 34) "".
Definition bullet : string := "•".

(** The pieces of a line, with a double quote between two of them. *)
Definition quoted (pieces : list string) : string := String.concat dq pieces.

(** *** [_run_kql] *)

(** The objects of [azure.monitor.query] the function reads.  The
    [columns] of a [LogsTable] are the names of the columns, a list of
    str. *)
Record LogsTable (Value : Type) : Type := {
  columns : list string;
  rows : list (list Value);
}.
Arguments columns {Value} _.
Arguments rows {Value} _.

(** What [client.query_workspace(...)] does: it raises, or answers with a
    status and, by the status, [partial_data] (a list, or [None]) or
    [tables]. *)
Inductive query_reply (Value : Type) : Type :=
  | QueryRaised
  | Partial (partial_data : option (list (LogsTable Value)))
  | Success (tables : list (LogsTable Value))
  | OtherStatus.
Arguments QueryRaised {Value}.
Arguments Partial {Value} partial_data.
Arguments Success {Value} tables.
Arguments OtherStatus {Value}.

(** [c.name] on a column: a str has no attribute [name]. *)
Definition column_name (c : string) : result string := Raise AttributeError.

(** [dict(zip(keys, values))]: pairs up to the shorter list, a later pair
    replaces an earlier one with the same key. *)
Definition zip_dict {V} (keys : list string) (values : list V) : gmap string V :=
  foldl (λ m kv, <[kv.1 := kv.2]> m) ∅ (zip keys values).

(** The client of [azure.search.documents], as [main] builds it. *)
Record SearchClient : Type := {
  endpoint : string;
  index_name : string;
  credential : string;
}.

(** What [client.search(...)] and the iteration over it do. *)
Inductive search_reply : Type :=
  | SearchRaised
  | SearchResults (docs : list (gmap string json)).

(** [v[:n]]: a str or a list is cut; anything else raises ([TypeError];
    for a dict the interpreters from 3.12 on raise [KeyError] instead). *)
Definition slice (n : nat) (v : json) : result json :=
  match v with
  | JStr s => Ok (JStr (prefix n s))
  | JList l => Ok (JList (take n l))
  | _ => Raise TypeError
  end.

(** [v[0]], [None] when it raises. *)
Definition first_item (v : json) : option json :=
  match v with
  | JList (x :: _) => Some x
  | JStr (String c _) => Some (JStr (String c ""))
  | _ => None
  end.

(** [v[k]] with a string key, [None] when it raises. *)
Definition item (k : string) (v : json) : option json :=
  match subscript v k with
  | Ok x => Some x
  | Raise _ => None
  end.

(** Lines 140-146. *)
Definition system_message : string :=
  String.concat nl
    ["You are an AIOps reasoning agent. You must:";
     "1) Correlate metrics, logs and incidents.";
     "2) Explain the likely root cause succinctly.";
     "3) Propose a JSON plan with safe remediation actions.";
     "Only return a JSON object in your final response."].

(** Lines 152-160. *)
Definition schema_text : string :=
  String.concat nl
    ["Return a strict JSON object with the following schema:";
     "{";
     quoted ["  "; "rca_summary"; ": "; "string summarising the suspected root cause"; ","];
     quoted ["  "; "confidence"; ": number between 0 and 1,"];
     quoted ["  "; "actions"; ": ["];
     quoted ["     {"; "name"; ": "; "action_name"; ", "; "params"; ": {"; "key"; ": "; "value"; "}, "; "risk"; ": "; "low|medium|high"; "}"];
     "  ],";
     quoted ["  "; "evidence"; ": {"; "kql_name"; ": "; "string"; ", "; "kql_snippet"; ": "; "string"; ", "; "links"; ": ["; "url"; "]}"];
     "}"].

(** Lines 192-197. *)
Definition fallback_plan : json :=
  JDict {[ "rca_summary" := JStr "Unable to generate analysis due to error.";
           "confidence" := JFloat 0;
           "actions" := JList [];
           "evidence" := JDict ∅ ]}.

(** The fields of the incident that [_build_adaptive_card] reads with
    [incident[...]] (lines 259-260). *)
Definition required_fields : list string :=
  ["title"; "environment"; "severity"; "start_time_local"].

Section Services.
Context {World Value : Type}.
(** [client.query_workspace(workspace_id, query, timespan=...)], the
    time span in minutes. *)
Variable query_workspace :
  string → string → Z → World → query_reply Value * World.
(** [client.search(search_text=..., top=..., include_total_count=False)]. *)
Variable search : SearchClient → json → Z → World → search_reply * World.
(** [openai.ChatCompletion.create(...)] at an endpoint, with a key, an
    engine, the system and the user message: the response, or [None] when
    it raises. *)
Variable chat_completion :
  string → string → string → string → string → World → option json * World.
(** [json.loads] on a str, [None] when it raises. *)
Variable json_loads : string → option json.
(** [json.dumps] on a value of [json], and on the rows of the logs with
    [indent=2], where a value that is no JSON raises. *)
Variable json_dumps : json → string.
Variable dumps_rows : list (gmap string Value) → result string.
Variable py_repr : json → string.
(** The keys of a dict in the order of their insertion, which the map of
    [JDict] does not keep. *)
Variable dict_keys : gmap string json → list string.
(** [requests.post] with [json=] and with [data=]. *)
Variable requests_post :
  string → gmap string string → json → Z → World → post_result * World.
Variable requests_post_data :
  string → gmap string string → string → Z → World → post_result * World.
(** [os.environ]. *)
Variable environ : gmap string string.

(** Lines 96-100: the rows of a table, once [if table:] is passed. *)
Definition table_rows (table : LogsTable Value) : outcome (list (gmap string Value)) :=
  cols ← of_result (mapM column_name (columns table));
  Done ((λ r, zip_dict cols r) <$> rows table).

(** Lines 72-101.  Building the credential and the client is taken to
    return; the calls to [logging] are left out, here and below. *)
Definition _run_kql (workspace_id query : string) : Eff World (list (gmap string Value)) := λ w,
  match query_workspace workspace_id query 30 w with
  | (QueryRaised, w') => (Done [], w')
  | (Partial None, w') => (Failed (Builtin TypeError), w')
  | (Partial (Some []), w') => (Failed IndexError, w')
  | (Partial (Some (table :: _)), w') => (table_rows table, w')
  | (Success [], w') => (Done [], w')
  | (Success (table :: _), w') => (table_rows table, w')
  | (OtherStatus, w') => (Done [], w')
  end.

(** Lines 115-120: the dict kept for one document. *)
Definition kb_doc (doc : gmap string json) : json :=
  let get k := default JNull (doc !! k) in
  JDict {[ "id" := py_or (py_or (get "id") (get "doc_id")) (JStr "");
           "title" := py_or (get "title") (JStr "");
           "content" := py_or (py_or (get "content") (get "chunk")) (JStr "");
           "url" := py_or (get "url") (JStr "") ]}.

(** Lines 104-121. *)
Definition _rag_search (client : SearchClient) (query : json) (top_k : Z)
    : Eff World (list json) := λ w,
  match search client query top_k w with
  | (SearchRaised, w') => (Failed SdkError, w')
  | (SearchResults docs, w') => (Done (kb_doc <$> docs), w')
  end.

(** Line 135: the text for one document. *)
Definition kb_snippet (d : json) : result string :=
  title ← subscript d "title";
  content ← subscript d "content";
  cut ← slice 1000 content;
  Ok ("TITLE: " +:+ py_str py_repr title +:+ nl +:+ "CONTENT:" +:+ nl
      +:+ py_str py_repr cut).

(** Lines 124-162. *)
Definition _build_prompt (user_question : json)
    (logs_sample : list (gmap string Value)) (kb_docs : list json)
    : result (string * string) :=
  snippets ← mapM kb_snippet kb_docs;
  let kb_snippets := String.concat (nl +:+ nl) snippets in
  logs_preview ← dumps_rows (take 20 logs_sample);
  let user :=
    "QUESTION:" +:+ nl +:+ py_str py_repr user_question +:+ nl +:+ nl
    +:+ "CONTEXT_KB:" +:+ nl +:+ kb_snippets +:+ nl +:+ nl
    +:+ "CONTEXT_LOGS_SAMPLE:" +:+ nl +:+ logs_preview +:+ nl +:+ nl
    +:+ schema_text in
  Ok (system_message, user).

(** Lines 165-197.  The four settings written to the [openai] module are
    passed to the call: the endpoint and the key as arguments, the API
    type, the API version and the temperature being constants. *)
Definition _call_openai (system user endpoint deployment api_key : string)
    : Eff World json := λ w,
  match chat_completion endpoint api_key deployment system user w with
  | (Some response, w') =>
      let content : option json :=
        choices ← item "choices" response;
        choice ← first_item choices;
        message ← item "message" choice;
        item "content" message in
      match content with
      | Some (JStr text) =>
          match json_loads text with
          | Some plan => (Done plan, w')
          | None => (Done fallback_plan, w')
          end
      | _ => (Done fallback_plan, w')
      end
  | (None, w') => (Done fallback_plan, w')
  end.

(** [plan.get("evidence", {}).get(k, default)]. *)
Definition evidence_get (plan : json) (k : string) (dflt : json) : result json :=
  evidence ← dict_get plan "evidence" (JDict ∅);
  dict_get evidence k dflt.

(** [sep.join(v)]: the items of [v], for a dict its keys in the order of
    their insertion; all must be str. *)
Definition join (sep : string) (v : json) : result string :=
  items ← match v with
          | JDict d => Ok (JStr <$> dict_keys d)
          | _ => py_iter v
          end;
  strs ← mapM (λ x, match x with JStr s => Ok s | _ => Raise TypeError end) items;
  Ok (String.concat sep strs).

(** Line 250: the line of the card for one action. *)
Definition action_line (a : json) : result string :=
  name ← dict_get a "name" JNull;
  params ← dict_get a "params" (JDict ∅);
  Ok (bullet +:+ " " +:+ py_str py_repr name +:+ " " +:+ json_dumps params).

(** Lines 246-251: the four texts taken from the plan. *)
Definition card_texts (plan : json) : result (json * json * string * string) :=
  kql ← evidence_get plan "kql_snippet" (JStr "");
  kql_name ← evidence_get plan "kql_name" (JStr "");
  links ← evidence_get plan "links" (JList []) ≫= join ", ";
  actions ← dict_get plan "actions" (JList []) ≫= py_iter;
  actions_text ← String.concat nl <$> mapM action_line actions;
  Ok (kql, kql_name, links, actions_text).

(** Lines 239-296. *)
Definition _build_adaptive_card (plan incident : json) : result json :=
  '(kql, kql_name, links, actions_text) ← card_texts plan;
  title ← subscript incident "title";
  environment ← subscript incident "environment";
  severity ← subscript incident "severity";
  start_time_local ← subscript incident "start_time_local";
  id ← dict_get incident "id" (JStr "");
  service_name ← dict_get incident "service_name" (JStr "");
  region ← dict_get incident "region" (JStr "");
  change_ref ← dict_get incident "change_ref" (JStr "n/a");
  rca_summary ← dict_get plan "rca_summary" (JStr "");
  dashboard_url ← dict_get incident "dashboard_url" (JStr "https://");
  incident_url ← dict_get incident "incident_url" (JStr "https://");
  Ok (JDict {[
    "$schema" := JStr "https://adaptivecards.io/schemas/adaptive-card.json";
    "type" := JStr "AdaptiveCard";
    "version" := JStr "1.5";
    "msteams" := JDict {[ "width" := JStr "Full" ]};
    "body" := JList [
      JDict {[ "type" := JStr "TextBlock";
               "text" := JStr ("RCA: " +:+ py_str py_repr title);
               "wrap" := JBool true; "size" := JStr "Large";
               "weight" := JStr "Bolder" ]};
      JDict {[ "type" := JStr "TextBlock";
               "text" := JStr ("Environment: " +:+ py_str py_repr environment
                               +:+ " " +:+ bullet +:+ " Severity: "
                               +:+ py_str py_repr severity
                               +:+ " " +:+ bullet +:+ " Started: "
                               +:+ py_str py_repr start_time_local);
               "wrap" := JBool true; "isSubtle" := JBool true ]};
      JDict {[ "type" := JStr "FactSet";
               "facts" := JList [
                 JDict {[ "title" := JStr "Incident ID"; "value" := id ]};
                 JDict {[ "title" := JStr "Service"; "value" := service_name ]};
                 JDict {[ "title" := JStr "Region"; "value" := region ]};
                 JDict {[ "title" := JStr "Change Correlation";
                          "value" := change_ref ]} ] ]};
      JDict {[ "type" := JStr "TextBlock"; "text" := JStr "Suspected Root Cause";
               "weight" := JStr "Bolder"; "spacing" := JStr "Medium" ]};
      JDict {[ "type" := JStr "TextBlock"; "text" := rca_summary;
               "wrap" := JBool true ]};
      JDict {[ "type" := JStr "TextBlock"; "text" := JStr "Actions Executed";
               "weight" := JStr "Bolder"; "spacing" := JStr "Medium" ]};
      JDict {[ "type" := JStr "TextBlock"; "text" := JStr actions_text;
               "wrap" := JBool true ]};
      JDict {[ "type" := JStr "TextBlock"; "text" := JStr "KQL & Evidence";
               "weight" := JStr "Bolder"; "spacing" := JStr "Medium" ]};
      JDict {[ "type" := JStr "RichTextBlock";
               "inlines" := JList [
                 JDict {[ "type" := JStr "TextRun"; "text" := JStr "KQL: ";
                          "weight" := JStr "Bolder" ]};
                 JDict {[ "type" := JStr "TextRun"; "text" := kql_name;
                          "isSubtle" := JBool true ]} ] ]};
      JDict {[ "type" := JStr "TextBlock"; "text" := kql;
               "wrap" := JBool true; "fontType" := JStr "Monospace" ]};
      JDict {[ "type" := JStr "RichTextBlock";
               "inlines" := JList [
                 JDict {[ "type" := JStr "TextRun"; "text" := JStr "Evidence: ";
                          "weight" := JStr "Bolder" ]};
                 JDict {[ "type" := JStr "TextRun"; "text" := JStr links;
                          "isSubtle" := JBool true ]} ] ]} ];
    "actions" := JList [
      JDict {[ "type" := JStr "Action.OpenUrl"; "title" := JStr "View Dashboard";
               "url" := dashboard_url ]};
      JDict {[ "type" := JStr "Action.OpenUrl"; "title" := JStr "Open Incident";
               "url" := incident_url ]} ] ]}).

(** Lines 299-314. *)
Definition _post_to_teams (card_json : json) (webhook_url : string)
    : Eff World (option Z) := λ w,
  if String.eqb webhook_url "" then (Done None, w)
  else
    let headers := {[ "Content-Type" := "application/json" ]} in
    match requests_post_data webhook_url headers (json_dumps card_json) 15 w with
    | (Response code _, w') => (Done (Some code), w')
    | (Raised _, w') => (Done None, w')
    end.

(** [os.getenv(name, default)]. *)
Definition getenv (name dflt : string) : string := default dflt (environ !! name).

(** Lines 366-367 of [main]. *)
Definition query_logs : Eff World (list (gmap string Value)) :=
  let workspace_id := getenv "LOG_ANALYTICS_WORKSPACE_ID" "" in
  let kql_query := getenv "KQL_QUERY" "AppTraces | where Timestamp > ago(30m) | take 100" in
  if String.eqb workspace_id "" then mret [] else _run_kql workspace_id kql_query.

(** Lines 369-377 of [main]; building the client is taken to return. *)
Definition search_kb (question : json) : Eff World (list json) :=
  let search_endpoint := getenv "SEARCH_ENDPOINT" "" in
  let search_index := getenv "SEARCH_INDEX" "" in
  let search_api_key := getenv "SEARCH_API_KEY" "" in
  if negb (String.eqb search_endpoint "") && negb (String.eqb search_index "")
     && negb (String.eqb search_api_key "")
  then _rag_search {| endpoint := search_endpoint; index_name := search_index;
                      credential := search_api_key |} question 5
  else mret [].

(** Lines 317-410: [main], at the time [now]. *)
Definition main (now : string) (req : HttpRequest) : Eff World HttpResponse :=
  '(question, incident_ctx) ← lift (read_inputs now req);
  let openai_endpoint := getenv "OPENAI_ENDPOINT" "" in
  let openai_api_key := getenv "OPENAI_API_KEY" "" in
  let openai_deployment := getenv "OPENAI_DEPLOYMENT" "" in
  let teams_webhook := getenv "TEAMS_WEBHOOK_URL" "" in
  let remediation_url := getenv "REMEDIATION_URL" "" in
  let remediation_key := environ !! "REMEDIATION_KEY" in
  logs_sample ← query_logs;
  kb_docs ← search_kb question;
  '(system_msg, user_msg) ← lift (_build_prompt question logs_sample kb_docs);
  plan ← _call_openai system_msg user_msg openai_endpoint openai_deployment openai_api_key;
  plan ← run (remediation_step requests_post py_repr remediation_url remediation_key plan);
  card_payload ← lift (_build_adaptive_card plan incident_ctx);
  status ← _post_to_teams card_payload teams_webhook;
  kb_docs_used ← lift (mapM (λ d, subscript d "title") kb_docs);
  mret {| body := JDict {[ "ok" := JBool true;
                           "teams_post_status" := from_option JNum JNull status;
                           "plan" := plan;
                           "kb_docs_used" := JList kb_docs_used ]};
          mimetype := "application/json";
          status_code := 200 |}.

End Services.

End Agent.

(** ** Services for concrete runs of the agent *)

Module Stub.
Import Py Func FunctionApp Agent.

(** The world is the list of replies to come, as in [Script]. *)
Definition logs_table : LogsTable json :=
  {| columns := ["Timestamp"; "Message"];
     rows := [[JStr "10:00"; JStr "pool exhausted"];
              [JStr "10:01"; JStr "timeout"]] |}.

(** A workspace that cannot be reached, and one that answers with a
    table. *)
Definition query_workspace (workspace_id query : string) (minutes : Z)
    (w : list post_result) : query_reply json * list post_result :=
  (QueryRaised, w).

Definition query_table (workspace_id query : string) (minutes : Z)
    (w : list post_result) : query_reply json * list post_result :=
  (Success [logs_table], w).

(** A stand-in for the order of insertion of the keys of a dict. *)
Definition dict_keys (d : gmap string json) : list string := (map_to_list d).*1.

Definition runbook : gmap string json :=
  {[ "doc_id" := JStr "rb-7"; "title" := JStr "Pool exhaustion";
     "chunk" := JStr "Restart the service." ]}.

Definition search (client : SearchClient) (query : json) (top : Z)
    (w : list post_result) : search_reply * list post_result :=
  (SearchResults [runbook], w).

(** A model that is down, and one that answers with [text]. *)
Definition llm_down (endpoint api_key engine system user : string)
    (w : list post_result) : option json * list post_result :=
  (None, w).

Definition llm_says (text : string) (endpoint api_key engine system user : string)
    (w : list post_result) : option json * list post_result :=
  (Some (JDict {[ "choices" :=
     JList [JDict {[ "message" := JDict {[ "content" := JStr text ]} ]}] ]}), w).

(** A parser that knows one text. *)
Definition loads (s : string) : option json :=
  if String.eqb s "PLAN" then Some (Script.plan_of Script.three_actions) else None.

Definition dumps (v : json) : string := "{}".

Definition dumps_rows (rows : list (gmap string json)) : result string := Ok "[]".

Definition post_data (url : string) (headers : gmap string string) (data : string)
    (timeout : Z) (w : list post_result) : post_result * list post_result :=
  match w with
  | [] => (Raised "connection refused", [])
  | r :: w' => (r, w')
  end.

(** Every service configured. *)
Definition environ : gmap string string :=
  {[ "LOG_ANALYTICS_WORKSPACE_ID" := "ws-1";
     "SEARCH_ENDPOINT" := "https://search.example.net";
     "SEARCH_INDEX" := "runbooks";
     "SEARCH_API_KEY" := "k1";
     "OPENAI_ENDPOINT" := "https://llm.example.net";
     "OPENAI_API_KEY" := "k2";
     "OPENAI_DEPLOYMENT" := "gpt-4o";
     "TEAMS_WEBHOOK_URL" := "https://teams.example.net/hook";
     "REMEDIATION_URL" := Script.endpoint ]}.

Definition post_request : HttpRequest :=
  {| method := "POST"; get_json := Ok (JDict ∅) |}.

(** A request whose incident has no title, and one whose body is a list. *)
Definition untitled_request : HttpRequest :=
  {| method := "POST";
     get_json := Ok (JDict {[ "incident" := JDict {[ "severity" := JStr "Sev1" ]} ]}) |}.

Definition list_request : HttpRequest :=
  {| method := "POST"; get_json := Ok (JList [JNum 1]) |}.

(** A plan whose second action has a number as tag. *)
Definition odd_plan : json :=
  Script.plan_of [Script.action "scale_db" (JStr "low");
                  Script.action "restart_service" (JNum 1);
                  Script.action "toggle_feature_flag" (JStr "low")].

(** Two documents that differ after their first 1000 characters. *)
Definition long_doc (last : string) : gmap string json :=
  {[ "title" := JStr "Runbook";
     "content" := JStr (String.concat "" (replicate 1000 "x") +:+ last) ]}.

End Stub.

(** ** What is expected of the calls of a dispatch and of the fields of a
    document *)

Module Trace.
Import Py FunctionApp.

(** The arguments of one [requests.post(url, headers=..., json=...,
    timeout=...)]. *)
Record call : Type := {
  call_url : string;
  call_headers : gmap string string;
  call_json : json;
  call_timeout : Z;
}.

(** An executor [post] that also keeps, in order, the calls made to it. *)
Definition recording {World : Type}
    (post : string → gmap string string → json → Z → World → post_result * World)
    (url : string) (headers : gmap string string) (payload : json) (timeout : Z)
    (wl : World * list call) : post_result * (World * list call) :=
  let (r, w') := post url headers payload timeout wl.1 in
  (r, (w', wl.2 ++ [{| call_url := url; call_headers := headers;
                       call_json := payload; call_timeout := timeout |}])).

(** The call expected for an action, written out from lines 211-218: an
    action is sent when its [risk] is a str that lowers to [low] or
    [medium] and the endpoint is not empty; the call goes to the endpoint,
    with the content type and, for a key that is not empty, the key as
    headers, the name and the parameters of the action as JSON, and a
    timeout of 20. *)
Definition request_for (remediation_url : string) (remediation_key : option string)
    (act : json) : option call :=
  match act with
  | JDict d =>
      match d !! "risk" with
      | Some (JStr s) =>
          if bool_decide (lower s = "low" ∨ lower s = "medium")
             && bool_decide (remediation_url ≠ "")
          then
            Some {| call_url := remediation_url;
                    call_headers :=
                      match remediation_key with
                      | Some k =>
                          if bool_decide (k = "")
                          then {[ "Content-Type" := "application/json" ]}
                          else {[ "Content-Type" := "application/json";
                                  "x-functions-key" := k ]}
                      | None => {[ "Content-Type" := "application/json" ]}
                      end;
                    call_json :=
                      JDict {[ "action" := match d !! "name" with
                                           | Some name => name
                                           | None => JNull
                                           end;
                               "params" := match d !! "params" with
                                           | Some params => params
                                           | None => JDict ∅
                                           end ]};
                    call_timeout := 20 |}
          else None
      | _ => None
      end
  | _ => None
  end.

(** The value [_rag_search] is expected to keep for a field: the first
    truthy value the document has under the keys [ks], or the empty str. *)
Fixpoint first_truthy (doc : gmap string json) (ks : list string) : json :=
  match ks with
  | [] => JStr ""
  | k :: ks' =>
      match doc !! k with
      | Some v => if truthy v then v else first_truthy doc ks'
      | None => first_truthy doc ks'
      end
  end.

End Trace.

(** * Properties *)

Import Py Func Shape.

(** ** Python primitives *)

Lemma prefix_length n s : (String.length (prefix n s) ≤ n)%nat.
Proof.
  unfold prefix. revert s.
  induction n as [|n IH]; intros [|c s]; simpl; try lia.
  specialize (IH s). lia.
Qed.

Lemma prefix_short n s : (String.length s ≤ n)%nat → prefix n s = s.
Proof.
  unfold prefix. revert s.
  induction n as [|n IH]; intros [|c s]; simpl; intros Hlen; try done; try lia.
  f_equal. apply IH. lia.
Qed.

Example lower_mixed_case : lower "MeDiUm" = "medium" ∧ lower "LOW" = "low".
Proof. split; reflexivity. Qed.

(** ** The risk policy *)

Section RiskPolicy.
Import FunctionApp.

Lemma risk_tag_absent (d : gmap string json) :
  d !! "risk" = None → risk_tag (JDict d) = Ok "".
Proof. intros H. unfold risk_tag, dict_get. rewrite H. reflexivity. Qed.

Lemma risk_tag_falsy (d : gmap string json) v :
  d !! "risk" = Some v → truthy v = false → risk_tag (JDict d) = Ok "".
Proof.
  intros H Hv. unfold risk_tag, dict_get, py_or. rewrite H. simpl.
  rewrite Hv. reflexivity.
Qed.

Lemma risk_tag_str (d : gmap string json) s :
  d !! "risk" = Some (JStr s) → risk_tag (JDict d) = Ok (lower s).
Proof.
  intros H. unfold risk_tag, dict_get, py_or. rewrite H. simpl.
  destruct s; reflexivity.
Qed.

Lemma risk_tag_not_str (d : gmap string json) v :
  d !! "risk" = Some v → truthy v = true → is_str v = false →
  risk_tag (JDict d) = Raise AttributeError.
Proof.
  intros H Hv Hs. unfold risk_tag, dict_get, py_or. rewrite H. simpl.
  rewrite Hv. destruct v; try reflexivity. discriminate.
Qed.

Lemma risk_tag_tagged act :
  tagged act = true → ∃ risk, risk_tag act = Ok risk.
Proof.
  destruct act as [| | | | |l|d]; try discriminate. simpl.
  destruct (d !! "risk") as [v|] eqn:H.
  - intros [Hv|Hs]%orb_true_iff.
    + exists "". apply (risk_tag_falsy d v); [done|].
      by apply negb_true_iff.
    + destruct v; try discriminate. eexists. by apply risk_tag_str.
  - intros _. exists "". by apply risk_tag_absent.
Qed.

(** On a string tag the policy is the membership test on the lowered
    tag; an absent or falsy tag asks for approval. *)
Lemma classify_str (d : gmap string json) s :
  d !! "risk" = Some (JStr s) →
  classify (JDict d)
  = Ok (if low_or_medium (lower s) then AutoExecute else RequireApproval).
Proof. intros H. unfold classify. rewrite (risk_tag_str d s H). reflexivity. Qed.

Lemma classify_absent (d : gmap string json) :
  d !! "risk" = None → classify (JDict d) = Ok RequireApproval.
Proof. intros H. unfold classify. rewrite (risk_tag_absent d H). reflexivity. Qed.

Lemma classify_falsy (d : gmap string json) v :
  d !! "risk" = Some v → truthy v = false →
  classify (JDict d) = Ok RequireApproval.
Proof. intros H Hv. unfold classify. rewrite (risk_tag_falsy d v H Hv). reflexivity. Qed.

Example classify_high :
  classify (Script.action "scale_db" (JStr "HIGH")) = Ok RequireApproval.
Proof. reflexivity. Qed.

End RiskPolicy.

(** ** The dispatch loop *)

Section DispatchFacts.
Import FunctionApp Run.
Context {World : Type}.
Variable post : string → gmap string string → json → Z → World → post_result * World.
Variable url : string.
Variable key : option string.

#[local] Abbreviation body := (remediate_action post url key).
#[local] Abbreviation loop := (for_actions post url key).
#[local] Abbreviation calls risk := (low_or_medium risk && negb (String.eqb url "")).

Lemma post_action_returns name params w :
  ∃ o w', post_action post url key name params w = (Ok o, w') ∧
    match post url (request_headers key) (payload_of name params) 20 w with
    | (Response code text, v) => o = executed_record name code text ∧ v = w'
    | (Raised message, v) => o = error_record name message ∧ v = w'
    end.
Proof.
  unfold post_action.
  destruct (post url (request_headers key) (payload_of name params) 20 w)
    as [[code text|message] v]; eauto.
Qed.

(** The body on an action with a usable tag: the three reads succeed and
    the test of line 212 picks the branch. *)
Lemma body_tagged act w :
  tagged act = true →
  ∃ name params risk,
    dict_get act "name" JNull = Ok name ∧
    dict_get act "params" (JDict ∅) = Ok params ∧
    risk_tag act = Ok risk ∧
    body act w = if calls risk
                 then post_action post url key name params w
                 else (Ok (skipped_record name), w).
Proof.
  intros Ht. destruct (risk_tag_tagged act Ht) as [risk Hr].
  destruct act as [| | | | |l|d]; try discriminate.
  exists (default JNull (d !! "name")), (default (JDict ∅) (d !! "params")), risk.
  repeat split; [done|].
  unfold remediate_action, pure, mbind, M_bind. simpl. rewrite Hr.
  destruct (calls risk); reflexivity.
Qed.

Lemma body_tagged_returns act w :
  tagged act = true → ∃ o w', body act w = (Ok o, w').
Proof.
  intros Ht. destruct (body_tagged act w Ht) as (name & params & risk & _ & _ & _ & ->).
  destruct (calls risk); [|eauto].
  destruct (post_action_returns name params w) as (o & w' & -> & _). eauto.
Qed.

Lemma loop_cons_ok act rest acc o w w1 :
  body act w = (Ok o, w1) → loop (act :: rest) acc w = loop rest (acc ++ [o]) w1.
Proof. intros H. simpl. unfold mbind, M_bind. rewrite H. reflexivity. Qed.

Lemma loop_cons_raise act rest acc e w w1 :
  body act w = (Raise e, w1) → loop (act :: rest) acc w = (Raise e, w1).
Proof. intros H. simpl. unfold mbind, M_bind. rewrite H. reflexivity. Qed.

(** A run of the loop that returns is a run of the body on every action. *)
Lemma loop_dispatched acts : ∀ acc w outs w',
  dispatched post url key acts w outs w' → loop acts acc w = (Ok (acc ++ outs), w').
Proof.
  induction acts as [|act acts IH]; intros acc w outs w' Hd; inversion Hd; subst.
  - simpl. by rewrite app_nil_r.
  - erewrite loop_cons_ok by eassumption.
    erewrite IH by eassumption. by rewrite <- app_assoc.
Qed.

Lemma loop_returns_dispatched acts : ∀ acc w outs w',
  loop acts acc w = (Ok outs, w') →
  ∃ new, outs = acc ++ new ∧ dispatched post url key acts w new w'.
Proof.
  induction acts as [|act acts IH]; intros acc w outs w' H.
  - injection H as <- <-. exists []. split; [by rewrite app_nil_r | constructor].
  - destruct (body act w) as [[o|e] w1] eqn:Hb.
    + rewrite (loop_cons_ok _ _ _ _ _ _ Hb) in H.
      destruct (IH _ _ _ _ H) as (new & -> & Hd).
      exists (o :: new). split; [by rewrite <- app_assoc | by econstructor].
    + rewrite (loop_cons_raise _ _ _ _ _ _ Hb) in H. discriminate.
Qed.

Lemma dispatched_tagged acts : ∀ w,
  Forall (λ act, tagged act = true) acts →
  ∃ outs w', dispatched post url key acts w outs w'.
Proof.
  induction acts as [|act acts IH]; intros w Hall.
  - exists [], w. constructor.
  - apply Forall_cons in Hall as [Ht Hall].
    destruct (body_tagged_returns act w Ht) as (o & w1 & Hb).
    destruct (IH w1 Hall) as (outs & w2 & Hd).
    exists (o :: outs), w2. by econstructor.
Qed.

Lemma dispatched_length acts w outs w' :
  dispatched post url key acts w outs w' → length outs = length acts.
Proof. induction 1; simpl; congruence. Qed.

Lemma dispatched_lookup acts w outs w' i act :
  dispatched post url key acts w outs w' → acts !! i = Some act →
  ∃ o wi wi', outs !! i = Some o ∧ body act wi = (Ok o, wi').
Proof.
  intros Hd. revert i. induction Hd as [|a acts o outs w w1 w2 Hb Hd IH]; intros i Hi.
  - discriminate.
  - destruct i as [|i]; simpl in *.
    + injection Hi as ->. eauto.
    + eauto.
Qed.

Lemma dispatched_app xs ys w outs1 w1 outs2 w2 :
  dispatched post url key xs w outs1 w1 →
  dispatched post url key ys w1 outs2 w2 →
  dispatched post url key (xs ++ ys) w (outs1 ++ outs2) w2.
Proof. induction 1; simpl; intros; [done | econstructor; eauto]. Qed.

(** [_maybe_remediate] on a plan whose [actions] entry is a list. *)
Lemma maybe_remediate_list plan acts w :
  dict_get plan "actions" (JList []) = Ok (JList acts) →
  _maybe_remediate post url key plan w = loop acts [] w.
Proof.
  intros H. unfold _maybe_remediate, pure, mbind, M_bind. rewrite H. reflexivity.
Qed.


Lemma risk_tag_dict act risk :
  risk_tag act = Ok risk → ∃ d, act = JDict d.
Proof. destruct act; try discriminate. eauto. Qed.

(** Failure isolation on a plan that can be read.  On a plan whose actions
    are objects with an absent, falsy or string risk tag, [_maybe_remediate]
    returns whatever the executor does, a raise included: it gives one
    record per action, in the order of the actions; the record at index [i]
    carries the name of action [i] and is the skipped record when the action
    is not sent, the error record when the call made for it raised, and the
    record of the status code and of the body otherwise. *)
Theorem dispatch_isolates_failures plan acts w :
  dict_get plan "actions" (JList []) = Ok (JList acts) →
  Forall (λ act, tagged act = true) acts →
  ∃ outs w',
    _maybe_remediate post url key plan w = (Ok outs, w') ∧
    length outs = length acts ∧
    ∀ i act, acts !! i = Some act →
      ∃ name params risk o wi wi',
        dict_get act "name" JNull = Ok name ∧
        dict_get act "params" (JDict ∅) = Ok params ∧
        risk_tag act = Ok risk ∧
        outs !! i = Some o ∧
        body act wi = (Ok o, wi') ∧
        dict_get o "action" JNull = Ok name ∧
        if calls risk then
          match post url (request_headers key) (payload_of name params) 20 wi with
          | (Response code text, v) => o = executed_record name code text ∧ v = wi'
          | (Raised message, v) => o = error_record name message ∧ v = wi'
          end
        else o = skipped_record name ∧ wi' = wi.
Proof.
  intros Hplan Hall.
  destruct (dispatched_tagged acts w Hall) as (outs & w' & Hd).
  exists outs, w'. split; [|split].
  - rewrite (maybe_remediate_list plan acts w Hplan).
    by rewrite (loop_dispatched acts [] w outs w' Hd).
  - by eapply dispatched_length.
  - intros i act Hi.
    destruct (dispatched_lookup _ _ _ _ _ _ Hd Hi) as (o & wi & wi' & Ho & Hb).
    assert (Ht : tagged act = true).
    { rewrite Forall_lookup in Hall. by apply (Hall i). }
    destruct (body_tagged act wi Ht) as (name & params & risk & Hn & Hp & Hr & Hbody).
    exists name, params, risk, o, wi, wi'.
    repeat split; try done.
    + rewrite Hbody in Hb. destruct (calls risk).
      * destruct (post_action_returns name params wi) as (o' & w1 & Hpa & Hm).
        rewrite Hpa in Hb. injection Hb as <- <-.
        destruct (post url (request_headers key) (payload_of name params) 20 wi)
          as [[code text|message] v]; destruct Hm as [-> _]; reflexivity.
      * injection Hb as <- <-. reflexivity.
    + rewrite Hbody in Hb. destruct (calls risk).
      * destruct (post_action_returns name params wi) as (o' & w1 & Hpa & Hm).
        rewrite Hpa in Hb. by injection Hb as <- <-.
      * by injection Hb as <- <-.
Qed.


End DispatchFacts.

(** ** Dispatch without an endpoint *)

Section NoEndpoint.
Import FunctionApp Run.
Context {World : Type}.
Variable post : string → gmap string string → json → Z → World → post_result * World.
Variable key : option string.

Lemma body_no_endpoint act w :
  tagged act = true →
  ∃ name, dict_get act "name" JNull = Ok name ∧
    remediate_action post "" key act w = (Ok (skipped_record name), w).
Proof.
  intros Ht.
  destruct (body_tagged post "" key act w Ht) as (name & params & risk & Hn & _ & _ & Hb).
  exists name. split; [done|]. rewrite Hb. by rewrite andb_false_r.
Qed.

Lemma loop_no_endpoint acts : ∀ acc w,
  Forall (λ act, tagged act = true) acts →
  ∃ outs,
    for_actions post "" key acts acc w = (Ok (acc ++ outs), w) ∧
    Forall2 (λ act o, ∃ name, dict_get act "name" JNull = Ok name
                              ∧ o = skipped_record name) acts outs.
Proof.
  induction acts as [|act acts IH]; intros acc w Hall.
  - exists []. split; [by rewrite app_nil_r | constructor].
  - apply Forall_cons in Hall as [Ht Hall].
    destruct (body_no_endpoint act w Ht) as (name & Hn & Hb).
    destruct (IH (acc ++ [skipped_record name]) w Hall) as (outs & Hl & Hf).
    exists (skipped_record name :: outs). split.
    + rewrite (loop_cons_ok _ _ _ _ _ _ _ _ _ Hb), Hl. by rewrite <- app_assoc.
    + constructor; eauto.
Qed.

(** Dispatch without an endpoint, on a plan that can be read.  With an
    empty endpoint, on a plan whose actions are objects with an absent,
    falsy or string risk tag, [_maybe_remediate] calls nothing (the world is left as
    it was) and records every action, whatever its tag, as skipped with the
    one reason the code has for a skip, in the order of the actions. *)
Theorem no_endpoint_skips_every_action plan acts w :
  dict_get plan "actions" (JList []) = Ok (JList acts) →
  Forall (λ act, tagged act = true) acts →
  ∃ outs,
    _maybe_remediate post "" key plan w = (Ok outs, w) ∧
    Forall2 (λ act o, ∃ name,
               dict_get act "name" JNull = Ok name ∧
               o = skipped_record name ∧
               dict_get o "status" JNull = Ok (JStr "skipped") ∧
               dict_get o "reason" JNull
               = Ok (JStr "risk too high or remediation endpoint missing"))
            acts outs.
Proof.
  intros Hplan Hall.
  destruct (loop_no_endpoint acts [] w Hall) as (outs & Hl & Hf).
  exists outs. split.
  - by rewrite (maybe_remediate_list post "" key plan acts w Hplan).
  - eapply Forall2_impl; [exact Hf|].
    intros act o (name & Hn & ->). exists name. repeat split; done.
Qed.

End NoEndpoint.

(** ** The dispatcher on concrete plans *)

Section DispatchExamples.
Import FunctionApp Script.

(** Three actions, the call for the second raises: the first and the third
    are still sent and recorded. *)
Example second_call_raises :
  _maybe_remediate post endpoint None
    (plan_of [action "scale_db" (JStr "low");
              action "restart_service" (JStr "Medium");
              action "toggle_feature_flag" (JStr "LOW")])
    [Response 200 "done"; Raised "read timed out"; Response 403 "denied"]
  = (Ok [executed_record (JStr "scale_db") 200 "done";
         error_record (JStr "restart_service") "read timed out";
         executed_record (JStr "toggle_feature_flag") 403 "denied"], []).
Proof. vm_compute. reflexivity. Qed.

(** C1 (risk policy): the policy raises on a tag that is a number.  The
    action [{"name": "restart_service", "params": {}, "risk": 1}] has a
    truthy tag that is no str: [.lower()] raises [AttributeError], in the
    policy and so in the dispatcher, which returns no record at all. *)
Theorem risk_policy_raises_on_number_tag :
  classify (action "restart_service" (JNum 1)) = Raise AttributeError ∧
  _maybe_remediate post endpoint None
    (plan_of [action "restart_service" (JNum 1)]) []
  = (Raise AttributeError, []).
Proof. split; vm_compute; reflexivity. Qed.

(** C5 (missing endpoint): the tag is read before the endpoint.  With an
    empty endpoint, an action whose tag is the number 1 is not recorded as
    skipped: line 211 lowers the tag before line 212 looks at the endpoint,
    [.lower()] raises [AttributeError] and the dispatcher returns no
    record, neither for that action nor for the low risk action before
    it. *)
Theorem no_endpoint_tag_read_first :
  _maybe_remediate post "" None
    (plan_of [action "restart_service" (JNum 1)]) replies
  = (Raise AttributeError, replies) ∧
  _maybe_remediate post "" None
    (plan_of [action "scale_db" (JStr "low");
              action "restart_service" (JNum 1)]) replies
  = (Raise AttributeError, replies).
Proof. split; vm_compute; reflexivity. Qed.

(** C6 (failure isolation): a raise that is not isolated.  The call for
    the first action fails and is recorded; the second action has the
    number 1 as tag, [.lower()] raises [AttributeError] outside the [try]
    of the loop, and the dispatcher returns no outcome at all: the error
    record of the first action is lost with the rest. *)
Theorem failed_call_then_unreadable_action :
  remediate_action post endpoint None (action "scale_db" (JStr "low"))
    [Raised "read timed out"]
  = (Ok (error_record (JStr "scale_db") "read timed out"), []) ∧
  _maybe_remediate post endpoint None
    (plan_of [action "scale_db" (JStr "low");
              action "restart_service" (JNum 1)])
    [Raised "read timed out"]
  = (Raise AttributeError, []).
Proof. split; vm_compute; reflexivity. Qed.

(** C7 (bounded detail): the text of an exception is stored whole.  The
    call for a low risk action raises with a text of 301 characters; the
    record keeps all of them. *)
Theorem error_detail_is_not_truncated :
  _maybe_remediate post endpoint None
    (plan_of [action "restart_service" (JStr "low")]) [Raised long_message]
  = (Ok [error_record (JStr "restart_service") long_message], []) ∧
  dict_get (error_record (JStr "restart_service") long_message) "response" JNull
  = Ok (JStr long_message) ∧
  String.length long_message = 301%nat.
Proof. repeat split; vm_compute; reflexivity. Qed.

End DispatchExamples.

(** The body echoed on a call that returned is cut to 300 characters. *)
Lemma executed_detail_bounded name code text :
  ∃ s, dict_get (FunctionApp.executed_record name code text) "response" JNull
       = Ok (JStr s) ∧ (String.length s ≤ 300)%nat.
Proof. exists (prefix 300 text). split; [done | apply prefix_length]. Qed.

(** ** Appending the results to the plan *)

Section EnrichFacts.
Import FunctionApp Run.
Variable repr : json → string.

(** The action built for a record [r] whose ["action"] entry is [a]. *)
#[local] Abbreviation built r a :=
  (JDict {[ "name" := JStr ("result:" +:+ py_str repr a);
            "params" := r;
            "risk" := JStr "n/a" ]}).

Lemma result_action_built r :
  has_action r = true →
  ∃ a, subscript r "action" = Ok a ∧ result_action repr r = Ok (built r a).
Proof.
  destruct r as [| | | | |l|o]; try discriminate. simpl.
  intros [a Ha]%bool_decide_eq_true. exists a.
  unfold result_action. simpl. rewrite Ha. done.
Qed.

Lemma result_actions_built results :
  Forall (λ r, has_action r = true) results →
  ∃ new,
    mapM (result_action repr) results = Ok new ∧
    Forall2 (λ r act, ∃ a, subscript r "action" = Ok a ∧ act = built r a)
            results new.
Proof.
  induction 1 as [|r results Hr _ (new & Hm & Hf)].
  - exists []. split; [done | constructor].
  - destruct (result_action_built r Hr) as (a & Ha & Hb).
    exists (built r a :: new). split.
    + simpl. rewrite Hb. simpl. rewrite Hm. done.
    + constructor; eauto.
Qed.

Lemma setdefault_lookup (d : gmap string json) k v :
  setdefault d k v !! k = Some (default v (d !! k)).
Proof.
  unfold setdefault. destruct (d !! k) eqn:H; simpl; [done|].
  apply lookup_insert_eq.
Qed.

Lemma setdefault_lookup_ne (d : gmap string json) k v k' :
  k ≠ k' → setdefault d k v !! k' = d !! k'.
Proof.
  intros Hne. unfold setdefault. destruct (d !! k); [done|].
  by apply lookup_insert_ne.
Qed.

(** What [append_results] returns on a plan whose actions are a list. *)
Lemma append_results_list plan actions results :
  dict_get plan "actions" (JList []) = Ok (JList actions) →
  Forall (λ r, has_action r = true) results →
  ∃ new,
    Forall2 (λ r act, ∃ a, subscript r "action" = Ok a ∧ act = built r a)
            results new ∧
    ∃ plan',
      append_results repr plan results = Ok plan' ∧
      dict_get plan' "actions" (JList []) = Ok (JList (actions ++ new)) ∧
      (∀ k dflt, k ≠ "actions" → dict_get plan' k dflt = dict_get plan k dflt) ∧
      (results = [] → plan' = plan).
Proof.
  intros Hplan Hall.
  destruct (result_actions_built results Hall) as (new & Hm & Hf).
  exists new. split; [done|].
  destruct plan as [| | | | |l|d]; try discriminate.
  simpl in Hplan. injection Hplan as Hacts.
  destruct results as [|r results].
  - inversion Hf; subst. exists (JDict d). simpl.
    rewrite app_nil_r, Hacts. done.
  - exists (JDict (<["actions" := JList (actions ++ new)]>
                     (setdefault d "actions" (JList [])))).
    split; [|split; [|split]].
    + unfold append_results, subscript.
      rewrite setdefault_lookup, Hacts. simpl.
      change (mapM (result_action repr) (r :: results) = Ok new) in Hm.
      simpl in Hm. simpl. destruct (result_action repr r) as [y|]; [|done].
      simpl in *. destruct (mapM (result_action repr) results) as [k|]; [|done].
      simpl in *. by injection Hm as <-.
    + simpl. by rewrite lookup_insert_eq.
    + intros k dflt Hne. simpl.
      by rewrite lookup_insert_ne, setdefault_lookup_ne.
    + discriminate.
Qed.

(** C3 (plan enricher frame).  On a plan whose actions are a list (or
    absent) and records that carry an ["action"] entry, the actions of the
    plan returned are the old actions followed by one entry per record:
    their number is the sum, the first [length actions] of them are the old
    actions; every other entry of the plan, the summary, the confidence and
    the evidence among them, is what it was.  With no record the plan is
    returned as it is. *)
Theorem append_results_frame plan actions results :
  dict_get plan "actions" (JList []) = Ok (JList actions) →
  Forall (λ r, has_action r = true) results →
  ∃ plan' actions',
    append_results repr plan results = Ok plan' ∧
    dict_get plan' "actions" (JList []) = Ok (JList actions') ∧
    length actions' = (length actions + length results)%nat ∧
    take (length actions) actions' = actions ∧
    (∀ k dflt, k ≠ "actions" → dict_get plan' k dflt = dict_get plan k dflt) ∧
    dict_get plan' "rca_summary" JNull = dict_get plan "rca_summary" JNull ∧
    dict_get plan' "confidence" JNull = dict_get plan "confidence" JNull ∧
    dict_get plan' "evidence" JNull = dict_get plan "evidence" JNull ∧
    (results = [] → plan' = plan).
Proof.
  intros Hplan Hall.
  destruct (append_results_list plan actions results Hplan Hall)
    as (new & Hf & plan' & Happ & Hacts & Hframe & Hnil).
  exists plan', (actions ++ new).
  repeat split; try done; try (by apply Hframe).
  - rewrite length_app. by rewrite <- (Forall2_length _ _ _ Hf).
  - by rewrite take_app_length.
Qed.

End EnrichFacts.

(** ** A second dispatch of an enriched plan *)

Section Reentry.
Import FunctionApp Run.
Context {World : Type}.
Variable post : string → gmap string string → json → Z → World → post_result * World.
Variable url : string.
Variable key : option string.
Variable repr : json → string.

#[local] Abbreviation built r a :=
  (JDict {[ "name" := JStr ("result:" +:+ py_str repr a);
            "params" := r;
            "risk" := JStr "n/a" ]}).

Lemma built_requires_approval r a :
  classify (built r a) = Ok RequireApproval.
Proof. reflexivity. Qed.

(** The loop body on a result action: no call, a skipped record. *)
Lemma built_is_skipped r a w :
  remediate_action post url key (built r a) w
  = (Ok (skipped_record (JStr ("result:" +:+ py_str repr a))), w).
Proof. reflexivity. Qed.

Lemma built_all_skipped results new w :
  Forall2 (λ r act, ∃ a, subscript r "action" = Ok a ∧ act = built r a) results new →
  ∃ outs,
    dispatched post url key new w outs w ∧
    Forall2 (λ act o, ∃ name, dict_get act "name" JNull = Ok name
                              ∧ o = skipped_record name) new outs.
Proof.
  induction 1 as [|r act results new (a & _ & ->) _ (outs & Hd & Hf)].
  - exists []. split; constructor.
  - exists (skipped_record (JStr ("result:" +:+ py_str repr a)) :: outs). split.
    + econstructor; [apply built_is_skipped | exact Hd].
    + constructor; [|done]. eexists. split; reflexivity.
Qed.

(** C4 (re-entrancy guard).  Every action that [append_results] adds for a
    record [r] is named ["result:"] followed by the text of [r["action"]]
    (for a str, the str itself), has [r] as its parameters and the risk
    ["n/a"]; the policy asks approval for it; and a dispatch of the
    enriched plan does on the old actions what a dispatch of the plan does,
    then records every added action as skipped without a call. *)
Theorem result_actions_are_never_sent plan actions results :
  dict_get plan "actions" (JList []) = Ok (JList actions) →
  Forall (λ r, has_action r = true) results →
  ∃ plan' new,
    append_results repr plan results = Ok plan' ∧
    dict_get plan' "actions" (JList []) = Ok (JList (actions ++ new)) ∧
    Forall2 (λ r act, ∃ a,
               subscript r "action" = Ok a ∧
               act = built r a ∧
               (∀ s, a = JStr s →
                     dict_get act "name" JNull = Ok (JStr ("result:" +:+ s))) ∧
               dict_get act "risk" JNull = Ok (JStr "n/a") ∧
               classify act = Ok RequireApproval ∧
               ∀ v, remediate_action post url key act v
                    = (Ok (skipped_record (JStr ("result:" +:+ py_str repr a))), v))
            results new ∧
    ∀ w outs w1,
      _maybe_remediate post url key plan w = (Ok outs, w1) →
      ∃ outs',
        _maybe_remediate post url key plan' w = (Ok (outs ++ outs'), w1) ∧
        Forall2 (λ act o, ∃ name, dict_get act "name" JNull = Ok name
                                  ∧ o = skipped_record name) new outs'.
Proof.
  intros Hplan Hall.
  destruct (append_results_list repr plan actions results Hplan Hall)
    as (new & Hf & plan' & Happ & Hacts & _ & _).
  exists plan', new. split; [done|]. split; [done|]. split.
  - eapply Forall2_impl; [exact Hf|].
    intros r act (a & Ha & ->). exists a.
    split; [done|]. split; [done|]. split; [|split; [done|split; [done|]]].
    + by intros s ->.
    + intros v. apply built_is_skipped.
  - intros w outs w1 Hrun.
    rewrite (maybe_remediate_list post url key plan actions w Hplan) in Hrun.
    destruct (loop_returns_dispatched post url key _ _ _ _ _ Hrun) as (outs0 & -> & Hd).
    destruct (built_all_skipped results new w1 Hf) as (outs' & Hd' & Hs).
    exists outs'. split; [|done].
    rewrite (maybe_remediate_list post url key plan' (actions ++ new) w Hacts).
    by apply (loop_dispatched post url key (actions ++ new) []), dispatched_app with w1.
Qed.

End Reentry.

(** ** Step 4 of [main] as a whole *)

Section Pipeline.
Import FunctionApp Run.
Context {World : Type}.
Variable post : string → gmap string string → json → Z → World → post_result * World.
Variable url : string.
Variable key : option string.
Variable repr : json → string.

(** Every record the loop body returns carries an ["action"] entry. *)
Lemma body_has_action act w o w' :
  remediate_action post url key act w = (Ok o, w') → has_action o = true.
Proof.
  destruct act as [| | | | |l|d]; try discriminate.
  unfold remediate_action, pure, mbind, M_bind. simpl.
  destruct (risk_tag (JDict d)) as [risk|]; [|discriminate].
  destruct (low_or_medium risk && negb (String.eqb url "")).
  - unfold post_action.
    destruct (post url _ _ 20 w) as [[code text|message] v];
      intros [= <- <-]; reflexivity.
  - intros [= <- <-]. reflexivity.
Qed.

Lemma dispatched_has_action acts w outs w' :
  dispatched post url key acts w outs w' →
  Forall (λ r, has_action r = true) outs.
Proof.
  induction 1 as [|act acts o outs w w1 w2 Hb _ IH]; constructor; [|done].
  by eapply body_has_action.
Qed.

(** On a plan of the data model the step returns the enriched plan: one
    record per action, one added action per record. *)
Lemma remediation_step_returns plan acts w :
  dict_get plan "actions" (JList []) = Ok (JList acts) →
  Forall (λ act, tagged act = true) acts →
  ∃ plan' new w',
    remediation_step post repr url key plan w = (Ok plan', w') ∧
    dict_get plan' "actions" (JList []) = Ok (JList (acts ++ new)) ∧
    length new = length acts.
Proof.
  intros Hplan Hall.
  destruct (dispatched_tagged post url key acts w Hall) as (outs & w' & Hd).
  pose proof (dispatched_has_action _ _ _ _ Hd) as Hout.
  destruct (append_results_list repr plan acts outs Hplan Hout)
    as (new & Hf & plan' & Happ & Hacts & _).
  exists plan', new, w'. split; [|split; [done|]].
  - unfold remediation_step, pure, mbind, M_bind.
    rewrite (maybe_remediate_list post url key plan acts w Hplan).
    rewrite (loop_dispatched post url key acts [] w outs w' Hd). simpl.
    by rewrite Happ.
  - rewrite <- (Forall2_length _ _ _ Hf). by eapply dispatched_length.
Qed.

End Pipeline.

(** ** The action guard *)

Section GuardFacts.
Import Remediation.

Lemma safe_actions_elements x :
  x ∈ elements SAFE_ACTIONS ↔
  x = "scale_db" ∨ x = "toggle_feature_flag" ∨ x = "restart_service".
Proof.
  rewrite elem_of_elements. unfold SAFE_ACTIONS.
  rewrite !elem_of_union, !elem_of_singleton. tauto.
Qed.

Lemma empty_not_safe : "" ∉ SAFE_ACTIONS.
Proof.
  unfold SAFE_ACTIONS. rewrite !elem_of_union, !elem_of_singleton.
  intros [[H|H]|H]; discriminate H.
Qed.

(** [not action or action not in SAFE_ACTIONS], when it can be asked. *)
Lemma rejected_decides action :
  truthy action = false ∨ hashable action = true →
  (∀ a, action = JStr a → a ∉ SAFE_ACTIONS) ∧ rejected action SAFE_ACTIONS = Ok true
  ∨ (∃ a, action = JStr a ∧ a ∈ SAFE_ACTIONS) ∧ rejected action SAFE_ACTIONS = Ok false.
Proof.
  unfold rejected. intros [Hf|Hh].
  - rewrite Hf. simpl. left. split; [|done].
    intros a ->. simpl in Hf. apply negb_false_iff, String.eqb_eq in Hf as ->.
    apply empty_not_safe.
  - destruct (truthy action) eqn:Ht; simpl.
    + destruct action as [| | | |a| |]; simpl in *; try discriminate;
        try (left; split; [intros a Heq; discriminate Heq | done]).
      destruct (decide (a ∈ SAFE_ACTIONS)) as [Hin|Hout].
      * right. split; [eauto|]. by rewrite bool_decide_eq_true_2.
      * left. split; [intros a' Heq; by injection Heq as <-|].
        by rewrite bool_decide_eq_false_2.
    + left. split; [|done].
      intros a ->. simpl in Ht. apply negb_false_iff, String.eqb_eq in Ht as ->.
      apply empty_not_safe.
Qed.

(** The whitelist decision on a body that can be read.  For a request
    whose body is a JSON object and whose [action] is absent, falsy or
    hashable: when
    [action] is no string of the whitelist the answer is 403 and [denied],
    with the whole whitelist, each name once, as [allowed_actions]; when it
    is one, the answer is 200 and [ok], with the action and the parameters
    of the request ([{}] when it has none). *)
Theorem guard_decides_by_whitelist req (d : gmap string json) :
  get_json req = Ok (JDict d) →
  truthy (default JNull (d !! "action")) = false
  ∨ hashable (default JNull (d !! "action")) = true →
  ∃ resp,
    main req = Ok resp ∧
    ((∀ a, d !! "action" = Some (JStr a) → a ∉ SAFE_ACTIONS) →
       status_code resp = 403 ∧
       ∃ allowed,
         body resp = JDict {[ "status" := JStr "denied";
                              "reason" := JStr "unsafe or unknown action";
                              "allowed_actions" := JList (JStr <$> allowed) ]} ∧
         NoDup allowed ∧
         ∀ x, x ∈ allowed ↔
              x = "scale_db" ∨ x = "toggle_feature_flag" ∨ x = "restart_service") ∧
    (∀ a, d !! "action" = Some (JStr a) → a ∈ SAFE_ACTIONS →
       status_code resp = 200 ∧
       body resp = JDict {[ "status" := JStr "ok";
                            "action" := JStr a;
                            "params" := default (JDict ∅) (d !! "params");
                            "message" := JStr "Action executed (simulation)." ]}).
Proof.
  intros Hbody Hact. unfold main, guard. rewrite Hbody. simpl.
  destruct (rejected_decides _ Hact) as [[Hno ->]|[(a & Ha & Hin) ->]]; simpl;
    eexists; (split; [reflexivity|]); simpl; split.
  - intros _. split; [done|]. exists (elements SAFE_ACTIONS).
    split; [done|]. split; [apply NoDup_elements | apply safe_actions_elements].
  - intros a Ha Hin. exfalso. apply (Hno a); [|done]. by rewrite Ha.
  - intros Hno. exfalso. destruct (d !! "action") as [v|] eqn:Hd; simpl in Ha.
    + subst v. by apply (Hno a).
    + discriminate.
  - intros a' Ha' Hin'. rewrite Ha'. simpl. done.
Qed.

(** C2 (whitelist decision): the guard raises where it should deny.  A
    body that parses to the JSON array [[]] has no [action], and the action
    [["scale_db"]] is not in the whitelist; for neither does the guard
    answer 403 with the allowed actions: [data.get] raises
    [AttributeError] on the first and the set test raises [TypeError] on
    the second, both outside the [try]. *)
Theorem guard_raises_on_parsed_body :
  main {| method := "POST"; get_json := Ok (JList []) |} = Raise AttributeError ∧
  main {| method := "POST";
          get_json := Ok (JDict {[ "action" := JList [JStr "scale_db"] ]}) |}
  = Raise TypeError.
Proof. split; vm_compute; reflexivity. Qed.

(** C8 (invalid input).  When [req.get_json()] raises, the guard answers
    400 with status [error] and the message [Invalid JSON.], whatever the
    whitelist is: the whitelist is not consulted. *)
Theorem invalid_json_is_rejected safe req e :
  get_json req = Raise e →
  guard safe req
  = Ok {| body := JDict {[ "status" := JStr "error";
                           "message" := JStr "Invalid JSON." ]};
          mimetype := "application/json";
          status_code := 400 |} ∧
  main req = guard safe req.
Proof. intros H. unfold main, guard. rewrite H. done. Qed.

End GuardFacts.

(** ** The entry point of the agent *)

Section EntryFacts.
Import FunctionApp.


End EntryFacts.

(** ** The theorems at concrete inputs *)

Section Instances.
Import FunctionApp Script.

Lemma dispatch_isolates_failures_witness :
  dict_get (plan_of three_actions) "actions" (JList []) = Ok (JList three_actions) ∧
  Forall (λ act, tagged act = true) three_actions ∧
  ∃ outs w',
    _maybe_remediate post endpoint None (plan_of three_actions) replies = (Ok outs, w') ∧
    length outs = 3%nat.
Proof.
  assert (Hplan : dict_get (plan_of three_actions) "actions" (JList [])
                  = Ok (JList three_actions)) by reflexivity.
  assert (Hall : Forall (λ act, tagged act = true) three_actions)
    by (repeat (constructor; [reflexivity|]); constructor).
  split; [exact Hplan|]. split; [exact Hall|].
  destruct (dispatch_isolates_failures post endpoint None
              (plan_of three_actions) three_actions replies Hplan Hall)
    as (outs & w' & Hrun & Hlen & _).
  exists outs, w'. split; [exact Hrun | exact Hlen].
Defined.


Lemma no_endpoint_skips_every_action_witness :
  dict_get (plan_of three_actions) "actions" (JList []) = Ok (JList three_actions) ∧
  Forall (λ act, tagged act = true) three_actions ∧
  ∃ outs,
    _maybe_remediate post "" None (plan_of three_actions) replies = (Ok outs, replies) ∧
    length outs = 3%nat.
Proof.
  assert (Hplan : dict_get (plan_of three_actions) "actions" (JList [])
                  = Ok (JList three_actions)) by reflexivity.
  assert (Hall : Forall (λ act, tagged act = true) three_actions)
    by (repeat (constructor; [reflexivity|]); constructor).
  split; [exact Hplan|]. split; [exact Hall|].
  destruct (no_endpoint_skips_every_action post None
              (plan_of three_actions) three_actions replies Hplan Hall)
    as (outs & Hrun & Hf).
  exists outs. split; [exact Hrun|].
  symmetry. exact (Forall2_length _ _ _ Hf).
Defined.

Lemma append_results_frame_witness :
  dict_get (plan_of three_actions) "actions" (JList []) = Ok (JList three_actions) ∧
  Forall (λ r, has_action r = true)
    [executed_record (JStr "scale_db") 200 "done"] ∧
  ∃ plan' actions',
    append_results repr (plan_of three_actions)
      [executed_record (JStr "scale_db") 200 "done"] = Ok plan' ∧
    dict_get plan' "actions" (JList []) = Ok (JList actions') ∧
    length actions' = 4%nat ∧
    dict_get plan' "rca_summary" JNull = Ok (JStr "pool exhausted").
Proof.
  assert (Hplan : dict_get (plan_of three_actions) "actions" (JList [])
                  = Ok (JList three_actions)) by reflexivity.
  assert (Hall : Forall (λ r, has_action r = true)
                   [executed_record (JStr "scale_db") 200 "done"])
    by (repeat (constructor; [reflexivity|]); constructor).
  split; [exact Hplan|]. split; [exact Hall|].
  destruct (append_results_frame repr (plan_of three_actions) three_actions
              [executed_record (JStr "scale_db") 200 "done"] Hplan Hall)
    as (plan' & actions' & Happ & Hacts & Hlen & _ & _ & Hsum & _).
  exists plan', actions'.
  split; [exact Happ|]. split; [exact Hacts|]. split; [exact Hlen|].
  rewrite Hsum. reflexivity.
Defined.

Lemma result_actions_are_never_sent_witness :
  dict_get (plan_of three_actions) "actions" (JList []) = Ok (JList three_actions) ∧
  Forall (λ r, has_action r = true)
    [executed_record (JStr "scale_db") 200 "done"] ∧
  ∃ plan' new,
    append_results repr (plan_of three_actions)
      [executed_record (JStr "scale_db") 200 "done"] = Ok plan' ∧
    dict_get plan' "actions" (JList []) = Ok (JList (three_actions ++ new)) ∧
    Forall (λ act, classify act = Ok RequireApproval) new.
Proof.
  assert (Hplan : dict_get (plan_of three_actions) "actions" (JList [])
                  = Ok (JList three_actions)) by reflexivity.
  assert (Hall : Forall (λ r, has_action r = true)
                   [executed_record (JStr "scale_db") 200 "done"])
    by (repeat (constructor; [reflexivity|]); constructor).
  split; [exact Hplan|]. split; [exact Hall|].
  destruct (result_actions_are_never_sent post endpoint None repr
              (plan_of three_actions) three_actions
              [executed_record (JStr "scale_db") 200 "done"] Hplan Hall)
    as (plan' & new & Happ & Hacts & Hf & _).
  exists plan', new. split; [exact Happ|]. split; [exact Hacts|].
  apply Forall2_Forall_r with (1 := Hf). apply Forall_true.
  intros r act (a & _ & _ & _ & _ & Hc & _). exact Hc.
Defined.

Lemma guard_decides_by_whitelist_witness :
  get_json {| method := "POST"; get_json := Ok (JDict scale_request) |}
  = Ok (JDict scale_request) ∧
  (truthy (default JNull (scale_request !! "action")) = false
   ∨ hashable (default JNull (scale_request !! "action")) = true) ∧
  ∃ resp,
    Remediation.main {| method := "POST"; get_json := Ok (JDict scale_request) |}
    = Ok resp ∧
    status_code resp = 200 ∧
    dict_get (body resp) "params" JNull = Ok (JDict {[ "x" := JNum 1 ]}).
Proof.
  assert (Hb : get_json {| method := "POST"; get_json := Ok (JDict scale_request) |}
               = Ok (JDict scale_request)) by reflexivity.
  assert (Ha : truthy (default JNull (scale_request !! "action")) = false
               ∨ hashable (default JNull (scale_request !! "action")) = true)
    by (right; reflexivity).
  split; [exact Hb|]. split; [exact Ha|].
  destruct (guard_decides_by_whitelist _ scale_request Hb Ha)
    as (resp & Hmain & _ & Hok).
  assert (Hin : "scale_db" ∈ Remediation.SAFE_ACTIONS)
    by (apply (bool_decide_unpack _); vm_compute; exact I).
  destruct (Hok "scale_db" eq_refl Hin) as [Hcode Hbody].
  exists resp. split; [exact Hmain|]. split; [exact Hcode|].
  rewrite Hbody. reflexivity.
Defined.

Lemma invalid_json_is_rejected_witness :
  get_json {| method := "POST"; get_json := Raise ValueError |} = Raise ValueError ∧
  Remediation.main {| method := "POST"; get_json := Raise ValueError |}
  = Ok {| body := JDict {[ "status" := JStr "error";
                           "message" := JStr "Invalid JSON." ]};
          mimetype := "application/json";
          status_code := 400 |}.
Proof.
  split; [reflexivity|].
  destruct (invalid_json_is_rejected Remediation.SAFE_ACTIONS
              {| method := "POST"; get_json := Raise ValueError |}
              ValueError eq_refl) as [Hg Hm].
  rewrite Hm. exact Hg.
Defined.


(** The two answers of the guard to a body that is an object. *)
Example guard_unknown_action :
  ∃ resp,
    Remediation.main {| method := "POST";
                        get_json := Ok (JDict {[ "action" := JStr "delete_everything" ]}) |}
    = Ok resp ∧ status_code resp = 403.
Proof. eexists. split; [vm_compute; reflexivity | reflexivity]. Qed.

Example guard_missing_action :
  ∃ resp,
    Remediation.main {| method := "POST"; get_json := Ok (JDict ∅) |}
    = Ok resp ∧ status_code resp = 403.
Proof. eexists. split; [vm_compute; reflexivity | reflexivity]. Qed.

End Instances.

(** * Further properties *)

(** ** The action guard: what it never answers, and when it raises *)

Section GuardSafety.
Import Remediation.

Lemma rejected_false action safe :
  rejected action safe = Ok false → ∃ a, action = JStr a ∧ a ∈ safe.
Proof.
  unfold rejected. destruct (truthy action); simpl; [|discriminate].
  destruct action as [| | | |a| |]; simpl; try discriminate.
  intros [= H]. exists a. split; [done|].
  by apply negb_false_iff, bool_decide_eq_true in H.
Qed.

Lemma rejected_raises action safe e :
  rejected action safe = Raise e →
  e = TypeError ∧ truthy action = true ∧ hashable action = false.
Proof.
  unfold rejected. destruct (truthy action) eqn:Ht; simpl; [|discriminate].
  destruct action; simpl; try discriminate; by intros [= <-].
Qed.

Lemma rejected_unhashable action safe :
  truthy action = true → hashable action = false →
  rejected action safe = Raise TypeError.
Proof.
  intros Ht Hh. unfold rejected. rewrite Ht. simpl.
  by destruct action.
Qed.

(** X1.  Whatever the request, a 200 is answered only to a body that is an
    object whose [action] is a string of the whitelist; the answer then
    carries that action. *)
Theorem guard_ok_only_for_whitelisted req resp :
  main req = Ok resp →
  status_code resp = 200 →
  ∃ (d : gmap string json) a,
    get_json req = Ok (JDict d) ∧
    d !! "action" = Some (JStr a) ∧
    a ∈ SAFE_ACTIONS ∧
    dict_get (body resp) "action" JNull = Ok (JStr a) ∧
    dict_get (body resp) "status" JNull = Ok (JStr "ok").
Proof.
  unfold main, guard.
  destruct (get_json req) as [data|e] eqn:Hbody.
  - destruct data as [| | | | | |d]; try discriminate. simpl.
    destruct (rejected (default JNull (d !! "action")) SAFE_ACTIONS)
      as [[|]|e] eqn:Hrej; simpl; try discriminate.
    + intros [= <-]. discriminate.
    + intros [= <-] _. destruct (rejected_false _ _ Hrej) as (a & Ha & Hin).
      exists d, a. split; [done|].
      destruct (d !! "action") as [v|] eqn:Hd; simpl in Ha; [|discriminate].
      subst v. simpl. done.
  - intros [= <-]. discriminate.
Qed.

(** X2.  The guard raises in two cases and no other: the body parsed is
    no object ([AttributeError]), or it is one and its [action] is a
    non-empty list or object ([TypeError]). *)
Theorem guard_raises_exactly req e :
  main req = Raise e ↔
  (∃ v, get_json req = Ok v ∧ (∀ d, v ≠ JDict d) ∧ e = AttributeError)
  ∨ (∃ (d : gmap string json) v,
       get_json req = Ok (JDict d) ∧ d !! "action" = Some v ∧
       truthy v = true ∧ hashable v = false ∧ e = TypeError).
Proof.
  unfold main, guard. split.
  - destruct (get_json req) as [data|e'] eqn:Hbody; [|discriminate].
    destruct data as [| | | | | |d];
      try (intros [= <-]; left; eexists; split; [done|]; split; [by intros d|done]).
    simpl.
    destruct (rejected (default JNull (d !! "action")) SAFE_ACTIONS)
      as [[|]|e'] eqn:Hrej; simpl; try discriminate.
    intros [= <-]. destruct (rejected_raises _ _ _ Hrej) as (-> & Ht & Hh).
    right. exists d. destruct (d !! "action") as [v|]; [|discriminate].
    exists v. done.
  - intros [(v & -> & Hv & ->)|(d & v & -> & Hd & Ht & Hh & ->)].
    + destruct v; try done. by destruct (Hv d).
    + simpl. rewrite Hd. simpl. by rewrite (rejected_unhashable v _ Ht Hh).
Qed.

End GuardSafety.

(** ** The dispatcher: odd plans, a raise in the loop, the calls made *)

Section DispatchEdges.
Import FunctionApp Run Trace.
Context {World : Type}.
Variable post : string → gmap string string → json → Z → World → post_result * World.
Variable url : string.
Variable key : option string.

Lemma body_untagged act w :
  tagged act = false →
  remediate_action post url key act w = (Raise AttributeError, w).
Proof.
  destruct act as [| | | | |l|d]; try reflexivity. simpl.
  destruct (d !! "risk") as [v|] eqn:Hd; [|discriminate].
  intros [Hv Hs]%orb_false_iff. apply negb_false_iff in Hv.
  unfold remediate_action, pure, mbind, M_bind. simpl.
  by rewrite (risk_tag_not_str d v Hd Hv Hs).
Qed.

Lemma loop_app xs ys acc w outs w1 :
  dispatched post url key xs w outs w1 →
  for_actions post url key (xs ++ ys) acc w
  = for_actions post url key ys (acc ++ outs) w1.
Proof.
  intros Hd. revert acc.
  induction Hd as [|act acts o outs w w1 w2 Hb _ IH]; intros acc.
  - by rewrite app_nil_r.
  - simpl app. rewrite (loop_cons_ok post url key _ _ _ _ _ _ Hb), IH.
    by rewrite <- app_assoc.
Qed.

(** X3.  Only a list of actions is dispatched.  When [actions] is
    anything else nothing is sent: an empty str or dict gives no record,
    a non-empty one raises [AttributeError] on its first item, and a
    value that cannot be iterated raises [TypeError]. *)
Theorem non_list_actions_are_never_sent plan v w :
  dict_get plan "actions" (JList []) = Ok v →
  (∀ acts, v ≠ JList acts) →
  _maybe_remediate post url key plan w
  = (match v with
     | JStr _ | JDict _ => if truthy v then Raise AttributeError else Ok []
     | _ => Raise TypeError
     end, w).
Proof.
  intros Hplan Hv. unfold _maybe_remediate, pure, mbind, M_bind. rewrite Hplan.
  destruct v as [| | | |s|l|m]; try reflexivity.
  - destruct s as [|c s]; reflexivity.
  - by destruct (Hv l).
  - simpl. destruct (map_to_list m) as [|[k x] kvs] eqn:Hm.
    + apply map_to_list_empty_iff in Hm as ->. reflexivity.
    + assert (m ≠ ∅) as Hne by (intros ->; by rewrite map_to_list_empty in Hm).
      rewrite (bool_decide_eq_false_2 _ Hne). reflexivity.
Qed.

(** X4.  An action the loop body cannot read, one that is no object or
    whose tag is a truthy value that is no str, ends the dispatch with
    [AttributeError]: the actions before it have been handled, the calls
    for them made, and their records are not returned. *)
Theorem raise_in_loop_drops_records plan good bad rest w :
  dict_get plan "actions" (JList []) = Ok (JList (good ++ bad :: rest)) →
  Forall (λ act, tagged act = true) good →
  tagged bad = false →
  ∃ outs w1,
    dispatched post url key good w outs w1 ∧
    length outs = length good ∧
    _maybe_remediate post url key plan w = (Raise AttributeError, w1).
Proof.
  intros Hplan Hgood Hbad.
  destruct (dispatched_tagged post url key good w Hgood) as (outs & w1 & Hd).
  exists outs, w1. split; [done|]. split; [by eapply dispatched_length|].
  rewrite (maybe_remediate_list post url key plan _ w Hplan).
  rewrite (loop_app good (bad :: rest) [] w outs w1 Hd).
  apply loop_cons_raise, body_untagged, Hbad.
Qed.

Lemma request_headers_written (rk : option string) :
  request_headers rk
  = match rk with
    | Some k =>
        if bool_decide (k = "")
        then {[ "Content-Type" := "application/json" ]}
        else {[ "Content-Type" := "application/json"; "x-functions-key" := k ]}
    | None => {[ "Content-Type" := "application/json" ]}
    end.
Proof.
  destruct rk as [k|]; [|done]. unfold request_headers.
  destruct (String.eqb_spec k "") as [->|Hne].
  - by rewrite bool_decide_eq_true_2.
  - rewrite bool_decide_eq_false_2 by done.
    rewrite <- !insert_empty. by apply insert_insert_ne.
Qed.

Lemma sent_test s :
  low_or_medium (lower s) && negb (String.eqb url "")
  = bool_decide (lower s = "low" ∨ lower s = "medium") && bool_decide (url ≠ "").
Proof.
  unfold low_or_medium. f_equal.
  - destruct (String.eqb_spec (lower s) "low") as [H1|H1],
      (String.eqb_spec (lower s) "medium") as [H2|H2]; simpl; symmetry;
      try (apply bool_decide_eq_true_2; tauto).
    apply bool_decide_eq_false_2. tauto.
  - destruct (String.eqb_spec url "") as [H|H]; simpl; symmetry.
    + apply bool_decide_eq_false_2. tauto.
    + by apply bool_decide_eq_true_2.
Qed.

(** On an action that can be read, the call written out in [request_for]
    is the call the loop body builds. *)
Lemma request_for_tagged (d : gmap string json) risk :
  tagged (JDict d) = true →
  risk_tag (JDict d) = Ok risk →
  request_for url key (JDict d)
  = if low_or_medium risk && negb (String.eqb url "")
    then Some {| call_url := url;
                 call_headers := request_headers key;
                 call_json := payload_of (default JNull (d !! "name"))
                                         (default (JDict ∅) (d !! "params"));
                 call_timeout := 20 |}
    else None.
Proof.
  simpl. unfold request_for.
  destruct (d !! "risk") as [v|] eqn:Hd.
  - intros [Hv|Hs]%orb_true_iff.
    + apply negb_true_iff in Hv. rewrite (risk_tag_falsy d v Hd Hv).
      intros [= <-]. simpl.
      destruct v as [| | | |s| |]; try reflexivity.
      destruct s; [reflexivity | discriminate].
    + destruct v as [| | | |s| |]; try discriminate.
      rewrite (risk_tag_str d s Hd). intros [= <-].
      rewrite sent_test, request_headers_written. reflexivity.
  - intros _. rewrite (risk_tag_absent d Hd). intros [= <-]. reflexivity.
Qed.

Lemma body_recording act w log :
  tagged act = true →
  ∃ o w',
    remediate_action post url key act w = (Ok o, w') ∧
    remediate_action (recording post) url key act (w, log)
    = (Ok o, (w', log ++ option_list (request_for url key act))).
Proof.
  intros Ht.
  destruct (body_tagged post url key act w Ht)
    as (name & params & risk & Hn & Hp & Hr & Hb).
  destruct (body_tagged (recording post) url key act (w, log) Ht)
    as (name' & params' & risk' & Hn' & Hp' & Hr' & Hb').
  rewrite Hn in Hn'. rewrite Hp in Hp'. rewrite Hr in Hr'.
  injection Hn' as <-. injection Hp' as <-. injection Hr' as <-.
  rewrite Hb, Hb'. destruct (risk_tag_dict act risk Hr) as [d ->].
  simpl in Hn, Hp. injection Hn as <-. injection Hp as <-.
  rewrite (request_for_tagged d risk Ht Hr).
  destruct (low_or_medium risk && negb (String.eqb url "")).
  - unfold post_action, recording. simpl.
    destruct (post url (request_headers key) _ 20 w) as [[code text|message] w'];
      eauto.
  - simpl. rewrite app_nil_r. eauto.
Qed.

Lemma dispatched_recording acts : ∀ w log,
  Forall (λ act, tagged act = true) acts →
  ∃ outs w',
    dispatched post url key acts w outs w' ∧
    dispatched (recording post) url key acts (w, log) outs
      (w', log ++ omap (request_for url key) acts).
Proof.
  induction acts as [|act acts IH]; intros w log Hall.
  - exists [], w. simpl. rewrite app_nil_r. split; constructor.
  - apply Forall_cons in Hall as [Ht Hall].
    destruct (body_recording act w log Ht) as (o & w1 & Hb & Hb').
    destruct (IH w1 (log ++ option_list (request_for url key act)) Hall)
      as (outs & w2 & Hd & Hd').
    exists (o :: outs), w2. split; [by econstructor|].
    replace (log ++ omap (request_for url key) (act :: acts))
      with ((log ++ option_list (request_for url key act))
            ++ omap (request_for url key) acts).
    + by econstructor.
    + rewrite <- app_assoc. f_equal. simpl.
      by destruct (request_for url key act).
Qed.

(** X5.  The calls of a dispatch.  Under an executor that keeps the calls
    it receives, a dispatch adds to them, in the order of the plan, one call
    for every action whose lowered tag is low or medium (none when the
    endpoint is empty), to the endpoint, with the headers of the key, the
    name and the parameters of the action as payload and a timeout of 20;
    no other call is made, and the records are those of the plain
    executor. *)
Theorem dispatch_sends_exactly plan acts w log :
  dict_get plan "actions" (JList []) = Ok (JList acts) →
  Forall (λ act, tagged act = true) acts →
  ∃ outs w',
    _maybe_remediate post url key plan w = (Ok outs, w') ∧
    _maybe_remediate (recording post) url key plan (w, log)
    = (Ok outs, (w', log ++ omap (request_for url key) acts)).
Proof.
  intros Hplan Hall.
  destruct (dispatched_recording acts w log Hall) as (outs & w' & Hd & Hd').
  exists outs, w'. split.
  - rewrite (maybe_remediate_list post url key plan acts w Hplan).
    by rewrite (loop_dispatched post url key acts [] w outs w' Hd).
  - rewrite (maybe_remediate_list (recording post) url key plan acts _ Hplan).
    by rewrite (loop_dispatched (recording post) url key acts [] _ _ _ Hd').
Qed.

End DispatchEdges.

(** ** Log rows, documents and the prompt *)

Section ZipDict.
Import Agent.
Context {V : Type}.

#[local] Abbreviation put := (λ (m : gmap string V) (kv : string * V), <[kv.1 := kv.2]> m).

(** A key that is none of the first [length values] keys is left alone. *)
Lemma zip_fold_other (keys : list string) : ∀ (values : list V) m k,
  (∀ j, (j < length values)%nat → keys !! j ≠ Some k) →
  foldl put m (zip keys values) !! k = m !! k.
Proof.
  induction keys as [|k0 keys IH]; intros [|v0 values] m k Hk; simpl; try done.
  rewrite IH.
  - apply lookup_insert_ne. intros ->. apply (Hk 0%nat); simpl; [lia|done].
  - intros j Hj. apply (Hk (S j)). simpl. lia.
Qed.

Lemma zip_fold_lookup (keys : list string) : ∀ (values : list V) m i k v,
  NoDup keys → keys !! i = Some k → values !! i = Some v →
  foldl put m (zip keys values) !! k = Some v.
Proof.
  induction keys as [|k0 keys IH]; intros [|v0 values] m i k v Hnd Hk Hv;
    try done; destruct i as [|i]; simpl in *; try done.
  - injection Hk as ->. injection Hv as ->.
    apply NoDup_cons in Hnd as [Hnotin _].
    rewrite zip_fold_other; [apply lookup_insert_eq|].
    intros j _ Hj. apply Hnotin. by eapply list_elem_of_lookup_2.
  - apply NoDup_cons in Hnd as [_ Hnd]. by eapply IH.
Qed.

Lemma zip_dict_lookup (keys : list string) (values : list V) i k v :
  NoDup keys → keys !! i = Some k → values !! i = Some v →
  zip_dict keys values !! k = Some v.
Proof. apply zip_fold_lookup. Qed.

Lemma zip_dict_absent (keys : list string) (values : list V) k :
  (∀ j, (j < length values)%nat → keys !! j ≠ Some k) →
  zip_dict keys values !! k = None.
Proof. intros H. unfold zip_dict. by rewrite zip_fold_other. Qed.

End ZipDict.

Section Retrieval.
Import Agent.
Context {World Value : Type}.
Variable query_workspace :
  string → string → Z → World → query_reply Value * World.
Variable search : SearchClient → json → Z → World → search_reply * World.
Variable dumps_rows : list (gmap string Value) → result string.
Variable py_repr : json → string.

Lemma or_empty_truthy v :
  truthy (py_or v (JStr "")) = true ∨ py_or v (JStr "") = JStr "".
Proof. unfold py_or. destruct (truthy v) eqn:H; [by left | by right]. Qed.

Lemma or_empty_first (doc : gmap string json) k :
  py_or (default JNull (doc !! k)) (JStr "") = Trace.first_truthy doc [k].
Proof.
  unfold py_or. simpl. destruct (doc !! k) as [v|]; simpl; [|done].
  by destruct (truthy v).
Qed.

Lemma or_or_empty_first (doc : gmap string json) k1 k2 :
  py_or (py_or (default JNull (doc !! k1)) (default JNull (doc !! k2))) (JStr "")
  = Trace.first_truthy doc [k1; k2].
Proof.
  change (Trace.first_truthy doc [k1; k2])
    with (match doc !! k1 with
          | Some v => if truthy v then v else Trace.first_truthy doc [k2]
          | None => Trace.first_truthy doc [k2]
          end).
  rewrite <- or_empty_first. unfold py_or at 2.
  destruct (doc !! k1) as [v|]; simpl; [|done].
  destruct (truthy v) eqn:Hv; [|done]. unfold py_or. by rewrite Hv.
Qed.

(** X7.  The documents [_rag_search] returns.  It returns one dict per
    document found, in order, each with the four keys [id], [title],
    [content] and [url] and no other: [id] is the first truthy value the
    document has under [id], then [doc_id], [content] the first under
    [content], then [chunk], [title] and [url] the value under their own
    key when it is truthy; a field with no truthy value is the empty str
    (never [None]). *)
Theorem rag_search_documents client q k w docs w' :
  search client q k w = (SearchResults docs, w') →
  ∃ out,
    _rag_search search client q k w = (Done out, w') ∧
    Forall2 (λ doc d, ∃ m : gmap string json,
               d = JDict m ∧
               dom m = {[ "id"; "title"; "content"; "url" ]} ∧
               m !! "id" = Some (Trace.first_truthy doc ["id"; "doc_id"]) ∧
               m !! "title" = Some (Trace.first_truthy doc ["title"]) ∧
               m !! "content" = Some (Trace.first_truthy doc ["content"; "chunk"]) ∧
               m !! "url" = Some (Trace.first_truthy doc ["url"]) ∧
               ∀ f v, m !! f = Some v → truthy v = true ∨ v = JStr "")
            docs out.
Proof.
  intros Hs. exists (kb_doc <$> docs). split.
  - unfold _rag_search. by rewrite Hs.
  - apply Forall2_fmap_r, Forall_Forall2_diag, Forall_forall.
    intros doc _. eexists. split; [reflexivity|]. split; [reflexivity|].
    split; [by rewrite <- or_or_empty_first|].
    split; [by rewrite <- or_empty_first|].
    split; [by rewrite <- or_or_empty_first|].
    split; [by rewrite <- or_empty_first|].
    intros f v.
    destruct (decide (f = "id")) as [->|]; [intros [= <-]; apply or_empty_truthy|].
    destruct (decide (f = "title")) as [->|]; [intros [= <-]; apply or_empty_truthy|].
    destruct (decide (f = "content")) as [->|]; [intros [= <-]; apply or_empty_truthy|].
    destruct (decide (f = "url")) as [->|]; [intros [= <-]; apply or_empty_truthy|].
    rewrite !lookup_insert_ne, lookup_singleton_ne by done. done.
Qed.

Lemma prefix_prefix n s : prefix n (prefix n s) = prefix n s.
Proof. apply prefix_short, prefix_length. Qed.

Lemma kb_snippet_content (m : gmap string json) s s' :
  m !! "content" = Some (JStr s) →
  prefix 1000 s = prefix 1000 s' →
  kb_snippet py_repr (JDict (<["content" := JStr s']> m))
  = kb_snippet py_repr (JDict m).
Proof.
  intros Hm Hp. unfold kb_snippet, subscript.
  rewrite (lookup_insert_ne m "content" "title") by done.
  rewrite lookup_insert_eq, Hm.
  destruct (m !! "title"); simpl; [|done]. by rewrite Hp.
Qed.

(** X8.  What the prompt reads.  The prompt is the same for two lists of
    log rows with the same first 20 rows, and for two lists of documents
    that differ only in the characters of their [content] after the first
    1000. *)
Theorem prompt_reads_bounded_input q logs logs' docs docs' :
  take 20 logs = take 20 logs' →
  Forall2 (λ d d', ∃ (m : gmap string json) s s',
             d = JDict m ∧ m !! "content" = Some (JStr s) ∧
             d' = JDict (<["content" := JStr s']> m) ∧
             prefix 1000 s = prefix 1000 s') docs docs' →
  _build_prompt dumps_rows py_repr q logs docs
  = _build_prompt dumps_rows py_repr q logs' docs'.
Proof.
  intros Hlogs Hdocs. unfold _build_prompt. rewrite Hlogs.
  replace (mapM (kb_snippet py_repr) docs') with (mapM (kb_snippet py_repr) docs);
    [done|].
  induction Hdocs as [|d d' docs docs' (m & s & s' & -> & Hm & -> & Hp) _ IH];
    [done|].
  simpl. by rewrite (kb_snippet_content m s s' Hm Hp), IH.
Qed.

(** The text for a document of [_rag_search]: the two keys are there, so
    only the cut of the content can raise. *)
Lemma kb_snippet_of_kb_doc doc :
  ∃ c, subscript (kb_doc doc) "content" = Ok c ∧
    match slice 1000 c with
    | Ok _ => ∃ text, kb_snippet py_repr (kb_doc doc) = Ok text
    | Raise e => e = TypeError ∧ kb_snippet py_repr (kb_doc doc) = Raise TypeError
    end.
Proof.
  set (c := py_or (py_or (default JNull (doc !! "content"))
                         (default JNull (doc !! "chunk"))) (JStr "")).
  set (title := py_or (default JNull (doc !! "title")) (JStr "")).
  exists c. split; [reflexivity|].
  assert (kb_snippet py_repr (kb_doc doc)
          = cut ← slice 1000 c;
            Ok ("TITLE: " +:+ py_str py_repr title +:+ nl +:+ "CONTENT:" +:+ nl
                +:+ py_str py_repr cut)) as -> by reflexivity.
  destruct (slice 1000 c) as [cut|e] eqn:Hs; simpl; [eauto|].
  assert (e = TypeError) as ->; [|done].
  unfold slice in Hs. clearbody c.
  destruct c; try discriminate; by injection Hs.
Qed.

(** X9.  The prompt for the documents of [_rag_search].  No key is ever
    missing: when every content can be cut (it is a str or a list) and the
    rows can be dumped, the prompt is built, with the fixed system message;
    when some content cannot, [_build_prompt] raises [TypeError]. *)
Theorem prompt_on_search_results q logs docs :
  (Forall (λ doc, ∃ c c', subscript (kb_doc doc) "content" = Ok c
                          ∧ slice 1000 c = Ok c') docs →
   ∀ text, dumps_rows (take 20 logs) = Ok text →
   ∃ user, _build_prompt dumps_rows py_repr q logs (kb_doc <$> docs)
           = Ok (system_message, user)) ∧
  (Exists (λ doc, ∃ c, subscript (kb_doc doc) "content" = Ok c
                       ∧ slice 1000 c = Raise TypeError) docs →
   _build_prompt dumps_rows py_repr q logs (kb_doc <$> docs) = Raise TypeError).
Proof.
  split.
  - intros Hall text Hdump.
    assert (∃ snippets, mapM (kb_snippet py_repr) (kb_doc <$> docs) = Ok snippets)
      as [snippets Hsn].
    { induction Hall as [|doc docs (c & c' & Hc & Hcut) _ [snippets IH]];
        [by exists []|].
      destruct (kb_snippet_of_kb_doc doc) as (c0 & Hc0 & Hm).
      rewrite Hc in Hc0. injection Hc0 as <-. rewrite Hcut in Hm.
      destruct Hm as [t Ht]. exists (t :: snippets).
      rewrite fmap_cons. simpl. rewrite Ht. simpl. by rewrite IH. }
    unfold _build_prompt. rewrite Hsn. simpl. rewrite Hdump. simpl. eauto.
  - intros Hex.
    assert (mapM (kb_snippet py_repr) (kb_doc <$> docs) = Raise TypeError) as Hsn.
    { induction Hex as [doc docs (c & Hc & Hcut)|doc docs _ IH].
      - destruct (kb_snippet_of_kb_doc doc) as (c0 & Hc0 & Hm).
        rewrite Hc in Hc0. injection Hc0 as <-. rewrite Hcut in Hm.
        destruct Hm as [_ Hm]. rewrite fmap_cons. simpl. by rewrite Hm.
      - destruct (kb_snippet_of_kb_doc doc) as (c0 & _ & Hm).
        rewrite fmap_cons. simpl.
        destruct (slice 1000 c0) as [cut|e].
        + destruct Hm as [t ->]. simpl. by rewrite IH.
        + destruct Hm as [_ ->]. done. }
    unfold _build_prompt. by rewrite Hsn.
Qed.

End Retrieval.

(** ** The card *)

Section Card.
Import Agent.
Variable json_dumps : json → string.
Variable py_repr : json → string.
Variable dict_keys : gmap string json → list string.

#[local] Abbreviation build := (_build_adaptive_card json_dumps py_repr dict_keys).
#[local] Abbreviation texts_of := (card_texts json_dumps py_repr dict_keys).

Lemma card_texts_dict plan texts :
  texts_of plan = Ok texts → ∃ d, plan = JDict d.
Proof. destruct plan; try discriminate. eauto. Qed.

Lemma card_key_error (dp : gmap string json) texts (di : gmap string json) k :
  texts_of (JDict dp) = Ok texts →
  k ∈ required_fields → di !! k = None →
  build (JDict dp) (JDict di) = Raise KeyError.
Proof.
  intros Ht Hk Hnone. destruct texts as [[[kql kql_name] links] actions_text].
  unfold _build_adaptive_card. rewrite Ht. simpl.
  destruct (di !! "title") eqn:H1; simpl; [|done].
  destruct (di !! "environment") eqn:H2; simpl; [|done].
  destruct (di !! "severity") eqn:H3; simpl; [|done].
  destruct (di !! "start_time_local") eqn:H4; simpl; [|done].
  exfalso. unfold required_fields in Hk.
  repeat (apply elem_of_cons in Hk as [->|Hk]; [congruence|]).
  by apply elem_of_nil in Hk.
Qed.

Lemma card_built (dp : gmap string json) texts (di : gmap string json) :
  texts_of (JDict dp) = Ok texts →
  Forall (λ k, is_Some (di !! k)) required_fields →
  ∃ card, build (JDict dp) (JDict di) = Ok card.
Proof.
  intros Ht Hall. unfold required_fields in Hall.
  apply Forall_cons in Hall as [[t Ht1] Hall].
  apply Forall_cons in Hall as [[e He] Hall].
  apply Forall_cons in Hall as [[s Hs] Hall].
  apply Forall_cons in Hall as [[st Hst] _].
  destruct texts as [[[kql kql_name] links] actions_text].
  unfold _build_adaptive_card. rewrite Ht. simpl.
  rewrite Ht1. simpl. rewrite He. simpl. rewrite Hs. simpl. rewrite Hst. simpl.
  eauto.
Qed.

(** Without one of the four fields no card is built, whatever the plan. *)
Lemma card_fails_without_field plan (di : gmap string json) k :
  k ∈ required_fields → di !! k = None →
  ∃ e, build plan (JDict di) = Raise e.
Proof.
  intros Hk Hnone. destruct (texts_of plan) as [texts|e] eqn:Ht.
  - exists KeyError. destruct (card_texts_dict plan texts Ht) as [dp ->].
    by apply (card_key_error dp texts di k).
  - exists e. unfold _build_adaptive_card. by rewrite Ht.
Qed.

(** X10.  The incident fields the card needs.  Once the four texts of the
    plan are made, the card is built exactly for an incident that is an
    object with [title], [environment], [severity] and [start_time_local]:
    a missing one raises [KeyError], an incident that is no object raises
    [TypeError]; the other six fields have defaults. *)
Theorem card_needs_four_incident_fields plan texts :
  texts_of plan = Ok texts →
  (∀ di : gmap string json,
     Forall (λ k, is_Some (di !! k)) required_fields →
     ∃ card, build plan (JDict di) = Ok card) ∧
  (∀ (di : gmap string json) k,
     k ∈ required_fields → di !! k = None →
     build plan (JDict di) = Raise KeyError) ∧
  (∀ v, (∀ di, v ≠ JDict di) → build plan v = Raise TypeError).
Proof.
  intros Ht. destruct (card_texts_dict plan texts Ht) as [dp ->].
  split; [|split].
  - intros di. by apply (card_built dp texts).
  - intros di k. by apply (card_key_error dp texts).
  - intros v Hv. destruct texts as [[[kql kql_name] links] actions_text].
    unfold _build_adaptive_card. rewrite Ht. simpl.
    destruct v; try done. by destruct (Hv d).
Qed.

End Card.

(** ** The entry point, end to end *)

Section Main.
Import FunctionApp Agent.
Context {World Value : Type}.
Variable query_workspace :
  string → string → Z → World → query_reply Value * World.
Variable search : SearchClient → json → Z → World → search_reply * World.
Variable chat_completion :
  string → string → string → string → string → World → option json * World.
Variable json_loads : string → option json.
Variable json_dumps : json → string.
Variable dumps_rows : list (gmap string Value) → result string.
Variable py_repr : json → string.
Variable dict_keys : gmap string json → list string.
Variable requests_post :
  string → gmap string string → json → Z → World → post_result * World.
Variable requests_post_data :
  string → gmap string string → string → Z → World → post_result * World.
Variable environ : gmap string string.

#[local] Abbreviation env name := (getenv environ name "").
#[local] Abbreviation agent :=
  (main query_workspace search chat_completion json_loads json_dumps dumps_rows
        py_repr dict_keys requests_post requests_post_data environ).
#[local] Abbreviation logs_step := (query_logs query_workspace environ).
#[local] Abbreviation docs_step := (search_kb search environ).
#[local] Abbreviation prompt := (_build_prompt dumps_rows py_repr).
#[local] Abbreviation llm system user :=
  (_call_openai chat_completion json_loads system user
     (env "OPENAI_ENDPOINT") (env "OPENAI_DEPLOYMENT") (env "OPENAI_API_KEY")).
#[local] Abbreviation remediate :=
  (remediation_step requests_post py_repr (env "REMEDIATION_URL")
     (environ !! "REMEDIATION_KEY")).
#[local] Abbreviation card := (_build_adaptive_card json_dumps py_repr dict_keys).
#[local] Abbreviation teams :=
  (λ c, _post_to_teams json_dumps requests_post_data c (env "TEAMS_WEBHOOK_URL")).

(** The response of [main], lines 401-410. *)
#[local] Abbreviation response status plan titles :=
  {| body := JDict {[ "ok" := JBool true;
                      "teams_post_status" := from_option JNum JNull status;
                      "plan" := plan;
                      "kb_docs_used" := JList titles ]};
     mimetype := "application/json";
     status_code := 200 |}.

Lemma bind_done {A B} (m : Eff World A) (f : A → Eff World B) w a w' :
  m w = (Done a, w') → (m ≫= f) w = f a w'.
Proof. intros H. unfold mbind, Eff_bind. by rewrite H. Qed.

Lemma bind_failed {A B} (m : Eff World A) (f : A → Eff World B) w e w' :
  m w = (Failed e, w') → (m ≫= f) w = (Failed e, w').
Proof. intros H. unfold mbind, Eff_bind. by rewrite H. Qed.

Lemma lift_ok {A} (r : result A) a (w : World) :
  r = Ok a → lift r w = (Done a, w).
Proof. by intros ->. Qed.

Lemma lift_raise {A} (r : result A) e (w : World) :
  r = Raise e → lift r w = (Failed (Builtin e), w).
Proof. by intros ->. Qed.

(** [_post_to_teams] returns: nothing is sent without a webhook, and a
    raise of the post is turned into [None]. *)
Lemma post_to_teams_returns c w :
  ∃ status w',
    teams c w = (Done status, w') ∧
    if String.eqb (env "TEAMS_WEBHOOK_URL") "" then status = None ∧ w' = w
    else
      match requests_post_data (env "TEAMS_WEBHOOK_URL")
              {[ "Content-Type" := "application/json" ]} (json_dumps c) 15 w with
      | (Response code _, v) => status = Some code ∧ v = w'
      | (Raised _, v) => status = None ∧ v = w'
      end.
Proof.
  unfold _post_to_teams. destruct (String.eqb _ ""); [eauto|].
  destruct (requests_post_data _ _ _ 15 w) as [[code text|message] v]; eauto.
Qed.

(** The documents [main] holds after the search have a title. *)
Lemma docs_step_titles question w docs w' :
  docs_step question w = (Done docs, w') →
  ∃ titles, mapM (λ d, subscript d "title") docs = Ok titles
            ∧ length titles = length docs.
Proof.
  unfold search_kb. destruct (_ && _).
  - unfold _rag_search. destruct (search _ question 5 w) as [[|found] v];
      [discriminate|]. intros [= <- <-].
    induction found as [|doc found [titles [IH Hlen]]]; [by exists []|].
    eexists (_ :: titles). rewrite fmap_cons. simpl. rewrite IH. simpl.
    split; [reflexivity|]. by rewrite Hlen.
  - intros [= <- <-]. by exists [].
Qed.

(** [main] from the plan on: what is left to do once the model has
    answered. *)
Lemma main_from_plan now req question incident w0 logs w1 docs w2
    system user plan w3 :
  read_inputs now req = Ok (question, incident) →
  logs_step w0 = (Done logs, w1) →
  docs_step question w1 = (Done docs, w2) →
  prompt question logs docs = Ok (system, user) →
  llm system user w2 = (Done plan, w3) →
  agent now req w0
  = (plan' ← run (remediate plan);
     c ← lift (card plan' incident);
     status ← teams c;
     titles ← lift (mapM (λ d, subscript d "title") docs);
     mret (response status plan' titles)) w3.
Proof.
  intros Hin Hlogs Hdocs Hprompt Hllm. unfold main.
  rewrite (bind_done _ _ w0 (question, incident) w0) by (by apply lift_ok).
  rewrite (bind_done _ _ w0 logs w1 Hlogs).
  rewrite (bind_done _ _ w1 docs w2 Hdocs).
  rewrite (bind_done _ _ w2 (system, user) w2) by (by apply lift_ok).
  by rewrite (bind_done _ _ w2 plan w3 Hllm).
Qed.

Lemma run_ok {A} (m : M World A) w a w' :
  m w = (Ok a, w') → run m w = (Done a, w').
Proof. intros H. unfold run. by rewrite H. Qed.

Lemma run_raise {A} (m : M World A) w e w' :
  m w = (Raise e, w') → run m w = (Failed (Builtin e), w').
Proof. intros H. unfold run. by rewrite H. Qed.

(** X11.  A model that fails.  When the call to the model raises, [main]
    still answers 200: the plan of the response is the fallback plan,
    nothing is sent to the executor (the card is posted from the world the
    model call left), and the card is built for any incident with the four
    fields. *)
Theorem model_failure_sends_nothing now req question (di : gmap string json)
    w0 logs w1 docs w2 system user w3 :
  read_inputs now req = Ok (question, JDict di) →
  logs_step w0 = (Done logs, w1) →
  docs_step question w1 = (Done docs, w2) →
  prompt question logs docs = Ok (system, user) →
  chat_completion (env "OPENAI_ENDPOINT") (env "OPENAI_API_KEY")
    (env "OPENAI_DEPLOYMENT") system user w2 = (None, w3) →
  Forall (λ k, is_Some (di !! k)) required_fields →
  ∃ c status w4 titles,
    card fallback_plan (JDict di) = Ok c ∧
    teams c w3 = (Done status, w4) ∧
    agent now req w0 = (Done (response status fallback_plan titles), w4).
Proof.
  intros Hin Hlogs Hdocs Hprompt Hchat Hfields.
  assert (Hllm : llm system user w2 = (Done fallback_plan, w3)).
  { unfold _call_openai. by rewrite Hchat. }
  assert (Htexts : card_texts json_dumps py_repr dict_keys fallback_plan
                   = Ok (JStr "", JStr "", "", "")) by reflexivity.
  unfold fallback_plan in Htexts.
  destruct (card_built json_dumps py_repr dict_keys _ _ di Htexts Hfields) as [c Hc].
  destruct (post_to_teams_returns c w3) as (status & w4 & Hteams & _).
  destruct (docs_step_titles question w1 docs w2 Hdocs) as (titles & Htitles & _).
  exists c, status, w4, titles. split; [exact Hc|]. split; [exact Hteams|].
  rewrite (main_from_plan now req question (JDict di) w0 logs w1 docs w2
             system user fallback_plan w3 Hin Hlogs Hdocs Hprompt Hllm).
  rewrite (bind_done _ _ w3 fallback_plan w3) by reflexivity.
  rewrite (bind_done _ _ w3 c w3) by (by apply lift_ok).
  rewrite (bind_done _ _ w3 status w4 Hteams).
  by rewrite (bind_done _ _ w4 titles w4) by (by apply lift_ok).
Qed.

(** X12.  The card comes after the dispatch.  When the incident of the
    request lacks one of the four fields, [main] fails, and it fails in
    the world the dispatch left: the actions have been sent, no card is
    posted and no response is returned. *)
Theorem missing_incident_field_fails_after_dispatch now req question
    (di : gmap string json) w0 logs w1 docs w2 system user plan w3 plan' w4 k :
  read_inputs now req = Ok (question, JDict di) →
  logs_step w0 = (Done logs, w1) →
  docs_step question w1 = (Done docs, w2) →
  prompt question logs docs = Ok (system, user) →
  llm system user w2 = (Done plan, w3) →
  remediate plan w3 = (Ok plan', w4) →
  k ∈ required_fields → di !! k = None →
  ∃ e, agent now req w0 = (Failed (Builtin e), w4).
Proof.
  intros Hin Hlogs Hdocs Hprompt Hllm Hrem Hk Hnone.
  destruct (card_fails_without_field json_dumps py_repr dict_keys plan' di k Hk Hnone)
    as [e He].
  exists e.
  rewrite (main_from_plan now req question (JDict di) w0 logs w1 docs w2
             system user plan w3 Hin Hlogs Hdocs Hprompt Hllm).
  rewrite (bind_done _ _ w3 plan' w4) by (by apply run_ok).
  by rewrite (bind_failed _ _ w4 (Builtin e) w4) by (by apply lift_raise).
Qed.

(** X13.  A body that is JSON but no object.  A POST whose body parses to
    anything but an object makes [main] fail with [AttributeError] before
    any service is called. *)
Theorem non_object_body_fails_at_once now req v w :
  method req = "POST" →
  get_json req = Ok v →
  (∀ d, v ≠ JDict d) →
  read_inputs now req = Raise AttributeError ∧
  agent now req w = (Failed (Builtin AttributeError), w).
Proof.
  intros Hm Hbody Hv.
  assert (Hin : read_inputs now req = Raise AttributeError).
  { unfold read_inputs, read_body. rewrite Hm, Hbody. simpl.
    destruct v; try reflexivity. by destruct (Hv d). }
  split; [exact Hin|]. unfold main.
  by apply bind_failed, lift_raise.
Qed.


(** X15.  One unreadable action fails the request.  When the plan of the
    model holds, after actions [good] that can be read, an action that is
    no object or whose tag is a truthy value that is no str, [main] fails
    with [AttributeError]: the actions of [good] have been handled, and
    neither a card nor a response follows. *)
Theorem unreadable_action_fails_the_request now req question incident
    w0 logs w1 docs w2 system user plan w3 good bad rest :
  read_inputs now req = Ok (question, incident) →
  logs_step w0 = (Done logs, w1) →
  docs_step question w1 = (Done docs, w2) →
  prompt question logs docs = Ok (system, user) →
  llm system user w2 = (Done plan, w3) →
  dict_get plan "actions" (JList []) = Ok (JList (good ++ bad :: rest)) →
  Forall (λ act, tagged act = true) good →
  tagged bad = false →
  ∃ outs w4,
    Run.dispatched requests_post (env "REMEDIATION_URL")
      (environ !! "REMEDIATION_KEY") good w3 outs w4 ∧
    agent now req w0 = (Failed (Builtin AttributeError), w4).
Proof.
  intros Hin Hlogs Hdocs Hprompt Hllm Hplan Hgood Hbad.
  destruct (dispatched_tagged requests_post (env "REMEDIATION_URL")
              (environ !! "REMEDIATION_KEY") good w3 Hgood) as (outs & w4 & Hd).
  exists outs, w4. split; [exact Hd|].
  rewrite (main_from_plan now req question incident w0 logs w1 docs w2
             system user plan w3 Hin Hlogs Hdocs Hprompt Hllm).
  apply bind_failed, run_raise.
  unfold remediation_step, mbind, M_bind.
  rewrite (maybe_remediate_list _ _ _ plan _ w3 Hplan).
  rewrite (loop_app _ _ _ good (bad :: rest) [] w3 outs w4 Hd).
  by rewrite (loop_cons_raise _ _ _ _ _ _ _ _ _ (body_untagged _ _ _ bad w4 Hbad)).
Qed.

Lemma table_rows_raises (table : LogsTable Value) :
  columns table ≠ [] →
  table_rows table = Failed (Builtin AttributeError).
Proof. unfold table_rows. by destruct (columns table). Qed.

(** X6.  A log table with a column.  Line 98 reads [c.name] off every
    column, and a column is a str: when the query answers, fully or in
    part, with a first table that has a column, [_run_kql] raises
    [AttributeError], outside its [try]; with a workspace configured
    [main] then fails at step 1, before the search, the model and the
    executor are called. *)
Theorem log_table_with_a_column_fails now req question incident
    ws w reply (table : LogsTable Value) tables w' :
  read_inputs now req = Ok (question, incident) →
  environ !! "LOG_ANALYTICS_WORKSPACE_ID" = Some ws →
  ws ≠ "" →
  query_workspace ws
    (getenv environ "KQL_QUERY" "AppTraces | where Timestamp > ago(30m) | take 100")
    30 w = (reply, w') →
  reply = Success (table :: tables) ∨ reply = Partial (Some (table :: tables)) →
  columns table ≠ [] →
  _run_kql query_workspace ws
    (getenv environ "KQL_QUERY" "AppTraces | where Timestamp > ago(30m) | take 100") w
  = (Failed (Builtin AttributeError), w') ∧
  agent now req w = (Failed (Builtin AttributeError), w').
Proof.
  intros Hin Hws Hne Hq Hreply Hcols.
  assert (Hrun : _run_kql query_workspace ws
             (getenv environ "KQL_QUERY"
                "AppTraces | where Timestamp > ago(30m) | take 100") w
           = (Failed (Builtin AttributeError), w')).
  { unfold _run_kql. rewrite Hq.
    destruct Hreply as [-> | ->]; by rewrite (table_rows_raises table Hcols). }
  split; [exact Hrun|]. unfold main.
  rewrite (bind_done _ _ w (question, incident) w) by (by apply lift_ok).
  apply bind_failed. unfold query_logs, getenv. rewrite Hws. simpl.
  apply String.eqb_neq in Hne. rewrite Hne. exact Hrun.
Qed.

(** X16.  A plan that is JSON but no object.  [_call_openai] returns
    whatever [json.loads] makes of the content of the first choice; when
    that is no object (a list, a str, a number, [null]), the dispatch
    raises [AttributeError] on it and [main] fails right after the call to
    the model, with nothing sent. *)
Theorem non_object_plan_fails_the_request now req question incident
    w0 logs w1 docs w2 system user response text plan w3 :
  read_inputs now req = Ok (question, incident) →
  logs_step w0 = (Done logs, w1) →
  docs_step question w1 = (Done docs, w2) →
  prompt question logs docs = Ok (system, user) →
  chat_completion (env "OPENAI_ENDPOINT") (env "OPENAI_API_KEY")
    (env "OPENAI_DEPLOYMENT") system user w2 = (Some response, w3) →
  (choices ← item "choices" response;
   choice ← first_item choices;
   message ← item "message" choice;
   item "content" message) = Some (JStr text) →
  json_loads text = Some plan →
  (∀ d, plan ≠ JDict d) →
  llm system user w2 = (Done plan, w3) ∧
  agent now req w0 = (Failed (Builtin AttributeError), w3).
Proof.
  intros Hin Hlogs Hdocs Hprompt Hchat Hcontent Hloads Hplan.
  assert (Hllm : llm system user w2 = (Done plan, w3)).
  { unfold _call_openai. rewrite Hchat, Hcontent. by rewrite Hloads. }
  split; [exact Hllm|].
  rewrite (main_from_plan now req question incident w0 logs w1 docs w2
             system user plan w3 Hin Hlogs Hdocs Hprompt Hllm).
  apply bind_failed, run_raise.
  destruct plan; try reflexivity. by destruct (Hplan d).
Qed.

End Main.

(** ** The further properties at concrete inputs *)

Section MoreInstances.
Import FunctionApp Script Agent Trace.

Lemma guard_ok_only_for_whitelisted_witness :
  ∃ resp a,
    Remediation.main {| method := "POST"; get_json := Ok (JDict scale_request) |}
    = Ok resp ∧
    status_code resp = 200 ∧
    scale_request !! "action" = Some (JStr a) ∧
    a ∈ Remediation.SAFE_ACTIONS.
Proof.
  assert (∃ resp,
            Remediation.main {| method := "POST"; get_json := Ok (JDict scale_request) |}
            = Ok resp ∧ status_code resp = 200) as (resp & Hmain & Hcode)
    by (eexists; split; reflexivity).
  destruct (guard_ok_only_for_whitelisted _ resp Hmain Hcode)
    as (d & a & Hbody & Ha & Hin & _).
  simpl in Hbody. injection Hbody as <-.
  exists resp, a. split; [exact Hmain|]. split; [exact Hcode|].
  split; [exact Ha | exact Hin].
Defined.

Lemma guard_raises_exactly_witness :
  Remediation.main {| method := "POST"; get_json := Ok (JList []) |}
  = Raise AttributeError.
Proof.
  apply (proj2 (guard_raises_exactly _ AttributeError)).
  left. exists (JList []). split; [reflexivity|]. split; [discriminate | reflexivity].
Defined.

Lemma non_list_actions_are_never_sent_witness :
  dict_get (JDict {[ "actions" := JStr "restart everything" ]}) "actions" (JList [])
  = Ok (JStr "restart everything") ∧
  _maybe_remediate post Script.endpoint None
    (JDict {[ "actions" := JStr "restart everything" ]}) replies
  = (Raise AttributeError, replies).
Proof.
  split; [reflexivity|].
  apply (non_list_actions_are_never_sent post Script.endpoint None
           (JDict {[ "actions" := JStr "restart everything" ]})
           (JStr "restart everything") replies); [reflexivity | discriminate].
Defined.

Lemma raise_in_loop_drops_records_witness :
  ∃ w1,
    _maybe_remediate post Script.endpoint None Stub.odd_plan replies
    = (Raise AttributeError, w1) ∧
    length w1 = 2%nat.
Proof.
  destruct (raise_in_loop_drops_records post Script.endpoint None Stub.odd_plan
              [action "scale_db" (JStr "low")]
              (action "restart_service" (JNum 1))
              [action "toggle_feature_flag" (JStr "low")] replies)
    as (outs & w1 & Hd & Hlen & Hrun).
  - reflexivity.
  - repeat (constructor; [reflexivity|]). constructor.
  - reflexivity.
  - exists w1. split; [exact Hrun|].
    assert (_maybe_remediate post Script.endpoint None Stub.odd_plan replies
            = (Raise AttributeError, [Raised "read timed out"; Response 403 "denied"]))
      as Hrun' by (vm_compute; reflexivity).
    rewrite Hrun in Hrun'. injection Hrun' as ->. reflexivity.
Defined.

Lemma dispatch_sends_exactly_witness :
  ∃ outs w',
    _maybe_remediate (recording post) Script.endpoint (Some "k") (plan_of three_actions)
      (replies, [])
    = (Ok outs, (w', omap (request_for Script.endpoint (Some "k")) three_actions)) ∧
    length (omap (request_for Script.endpoint (Some "k")) three_actions) = 2%nat.
Proof.
  destruct (dispatch_sends_exactly post Script.endpoint (Some "k") (plan_of three_actions)
              three_actions replies [])
    as (outs & w' & _ & Hrec).
  - reflexivity.
  - repeat (constructor; [reflexivity|]). constructor.
  - exists outs, w'. split; [exact Hrec | reflexivity].
Defined.

Lemma rag_search_documents_witness :
  ∃ out,
    _rag_search Stub.search
      {| endpoint := "e"; index_name := "i"; credential := "k" |}
      (JStr "why?") 5 replies = (Done out, replies) ∧
    length out = 1%nat.
Proof.
  destruct (rag_search_documents Stub.search
              {| endpoint := "e"; index_name := "i"; credential := "k" |}
              (JStr "why?") 5 replies [Stub.runbook] replies eq_refl)
    as (out & Hrun & Hf).
  exists out. split; [exact Hrun|].
  symmetry. exact (Forall2_length _ _ _ Hf).
Defined.

Lemma prompt_reads_bounded_input_witness :
  _build_prompt Stub.dumps_rows repr (JStr "why?") [] [JDict (Stub.long_doc "a")]
  = _build_prompt Stub.dumps_rows repr (JStr "why?") []
      [JDict (<["content" := JStr (String.concat "" (replicate 1000 "x") +:+ "b")]>
                (Stub.long_doc "a"))].
Proof.
  apply prompt_reads_bounded_input; [reflexivity|].
  constructor; [|constructor].
  exists (Stub.long_doc "a"), (String.concat "" (replicate 1000 "x") +:+ "a"),
    (String.concat "" (replicate 1000 "x") +:+ "b").
  split; [reflexivity|]. split; [reflexivity|]. split; [reflexivity|].
  vm_compute. reflexivity.
Defined.

Lemma prompt_on_search_results_witness :
  ∃ user,
    _build_prompt Stub.dumps_rows repr (JStr "why?") [] (kb_doc <$> [Stub.runbook])
    = Ok (system_message, user).
Proof.
  apply (proj1 (prompt_on_search_results Stub.dumps_rows repr (JStr "why?") []
                  [Stub.runbook])) with (text := "[]").
  - constructor; [|constructor]. eexists _, _. split; reflexivity.
  - reflexivity.
Defined.

Lemma card_needs_four_incident_fields_witness :
  ∃ c,
    _build_adaptive_card Stub.dumps repr Stub.dict_keys fallback_plan
      (default_incident "2024-05-01T10:00:00") = Ok c.
Proof.
  destruct (card_needs_four_incident_fields Stub.dumps repr Stub.dict_keys fallback_plan
              (JStr "", JStr "", "", "") eq_refl) as (Hbuilt & _ & _).
  apply Hbuilt. unfold required_fields.
  repeat (constructor; [eexists; reflexivity|]). constructor.
Defined.

#[local] Abbreviation agent_with llm :=
  (main Stub.query_workspace Stub.search llm Stub.loads Stub.dumps
        Stub.dumps_rows repr Stub.dict_keys post Stub.post_data Stub.environ
        "2024-05-01T10:00:00").

Lemma model_failure_sends_nothing_witness :
  ∃ resp w,
    agent_with Stub.llm_down Stub.post_request [Response 202 "1"] = (Done resp, w) ∧
    dict_get (body resp) "plan" JNull = Ok fallback_plan.
Proof.
  edestruct (model_failure_sends_nothing Stub.query_workspace Stub.search
               Stub.llm_down Stub.loads Stub.dumps Stub.dumps_rows repr Stub.dict_keys post
               Stub.post_data Stub.environ "2024-05-01T10:00:00" Stub.post_request)
    with (w0 := [Response 202 "1"])
    as (c & status & w4 & titles & _ & _ & Hmain).
  - reflexivity.
  - reflexivity.
  - reflexivity.
  - reflexivity.
  - reflexivity.
  - unfold required_fields. repeat (constructor; [eexists; reflexivity|]). constructor.
  - eexists _, _. split; [exact Hmain | reflexivity].
Defined.

Lemma missing_incident_field_fails_after_dispatch_witness :
  ∃ e w,
    agent_with (Stub.llm_says "PLAN") Stub.untitled_request replies
    = (Failed (Builtin e), w) ∧
    length w = 1%nat.
Proof.
  edestruct (missing_incident_field_fails_after_dispatch Stub.query_workspace
               Stub.search (Stub.llm_says "PLAN") Stub.loads Stub.dumps
               Stub.dumps_rows repr Stub.dict_keys post Stub.post_data Stub.environ
               "2024-05-01T10:00:00" Stub.untitled_request)
    with (w0 := replies) (k := "title") (w4 := [Response 403 "denied"])
    as [e Hmain].
  - reflexivity.
  - reflexivity.
  - reflexivity.
  - reflexivity.
  - reflexivity.
  - vm_compute. reflexivity.
  - unfold required_fields. apply elem_of_cons. left. reflexivity.
  - reflexivity.
  - exists e, [Response 403 "denied"]. split; [exact Hmain | reflexivity].
Defined.

Lemma non_object_body_fails_at_once_witness :
  agent_with Stub.llm_down Stub.list_request replies
  = (Failed (Builtin AttributeError), replies).
Proof.
  apply (proj2 (non_object_body_fails_at_once Stub.query_workspace Stub.search
           Stub.llm_down Stub.loads Stub.dumps Stub.dumps_rows repr Stub.dict_keys post
           Stub.post_data Stub.environ "2024-05-01T10:00:00" Stub.list_request
           (JList [JNum 1]) replies eq_refl eq_refl
           ltac:(discriminate))).
Defined.


Lemma unreadable_action_fails_the_request_witness :
  ∃ w,
    main Stub.query_workspace Stub.search (Stub.llm_says "ODD")
      (λ s, Some Stub.odd_plan) Stub.dumps Stub.dumps_rows repr Stub.dict_keys post
      Stub.post_data Stub.environ "2024-05-01T10:00:00" Stub.post_request replies
    = (Failed (Builtin AttributeError), w).
Proof.
  edestruct (unreadable_action_fails_the_request Stub.query_workspace
               Stub.search (Stub.llm_says "ODD") (λ s, Some Stub.odd_plan)
               Stub.dumps Stub.dumps_rows repr Stub.dict_keys post Stub.post_data Stub.environ
               "2024-05-01T10:00:00" Stub.post_request)
    with (w0 := replies)
         (good := [action "scale_db" (JStr "low")])
         (bad := action "restart_service" (JNum 1))
         (rest := [action "toggle_feature_flag" (JStr "low")])
    as (outs & w4 & _ & Hmain).
  - reflexivity.
  - reflexivity.
  - reflexivity.
  - reflexivity.
  - reflexivity.
  - reflexivity.
  - repeat (constructor; [reflexivity|]). constructor.
  - reflexivity.
  - exists w4. exact Hmain.
Defined.

Lemma log_table_with_a_column_fails_witness :
  main Stub.query_table Stub.search Stub.llm_down Stub.loads Stub.dumps
    Stub.dumps_rows repr Stub.dict_keys post Stub.post_data Stub.environ
    "2024-05-01T10:00:00" Stub.post_request replies
  = (Failed (Builtin AttributeError), replies).
Proof.
  edestruct (log_table_with_a_column_fails Stub.query_table Stub.search
               Stub.llm_down Stub.loads Stub.dumps Stub.dumps_rows repr
               Stub.dict_keys post Stub.post_data Stub.environ
               "2024-05-01T10:00:00" Stub.post_request)
    with (ws := "ws-1") (w := replies) (table := Stub.logs_table)
    as [_ Hmain].
  - reflexivity.
  - reflexivity.
  - discriminate.
  - reflexivity.
  - left. reflexivity.
  - discriminate.
  - exact Hmain.
Defined.

Lemma non_object_plan_fails_the_request_witness :
  main Stub.query_workspace Stub.search (Stub.llm_says "[1, 2]")
    (λ s, Some (JList [JNum 1; JNum 2])) Stub.dumps Stub.dumps_rows repr Stub.dict_keys post
    Stub.post_data Stub.environ "2024-05-01T10:00:00" Stub.post_request replies
  = (Failed (Builtin AttributeError), replies).
Proof.
  edestruct (non_object_plan_fails_the_request Stub.query_workspace
               Stub.search (Stub.llm_says "[1, 2]")
               (λ s, Some (JList [JNum 1; JNum 2]))
               Stub.dumps Stub.dumps_rows repr Stub.dict_keys post Stub.post_data Stub.environ
               "2024-05-01T10:00:00" Stub.post_request)
    with (w0 := replies) (text := "[1, 2]") as [_ Hmain].
  - reflexivity.
  - reflexivity.
  - reflexivity.
  - reflexivity.
  - reflexivity.
  - reflexivity.
  - reflexivity.
  - discriminate.
  - exact Hmain.
Defined.

End MoreInstances.
